(** * The robogen viewer: frame pacing, recording and scene composition

    A shallow embedding of [src/viewer/Viewer.cpp] (class [robogen::Viewer]
    and its helper [SnapImageDrawCallback]) and the properties of its frame
    scheduler, its recorder and its scene composer; at the end of the
    definitions, the identifier that [src/scenario/JSScenario.cpp] builds
    for a scripted scenario.

    Conventions of the embedding:
    - a C++ [double] is a binary64 [float] of Rocq's kernel, with the
      kernel's IEEE operations and comparisons;
    - an [unsigned int] is an [N]; the only arithmetic on one that can
      leave the 32-bit range is [frameCount++], which wraps;
    - a [boost::posix_time::ptime] is a number of microseconds, an integer;
    - the member functions are computations in a state-and-failure monad
      over the [World]: the viewer object, standard output and the log of
      the image writes. Failure stands for undefined behaviour of the C++
      code (division by zero, a read of a member that [init] left
      unassigned);
    - what the rendering library and the operating system decide (the
      clock, whether an image write succeeds, the input events that the
      rendering library hands to the keyboard handler while it presents
      a frame) enters as arguments. *)

From Stdlib Require Import ZArith NArith List String Ascii Bool Lia Floats.
From Stdlib Require Import DecimalString DecimalN.
Import ListNotations.

Local Open Scope N_scope.

(** ** Machine data *)

Definition UINT_MODULUS : N := 2 ^ 32.

(** [x++] on an [unsigned int]. *)
Definition uint_incr (x : N) : N := (x + 1) mod UINT_MODULUS.

(** Microseconds since the epoch. *)
Definition ptime := Z.

(** [time_duration::total_milliseconds]: the tick count (microseconds)
    divided by 1000 as integers, truncating. *)
Definition total_milliseconds (diff : Z) : Z := Z.quot diff 1000.

(** Conversion of an integer to [double], to nearest-even. *)
Definition double_of_int (z : Z) : float :=
  SF2Prim (binary_normalize prec emax z 0 false).

(** Decimal numeral of an unsigned integer. *)
Definition decimal (n : N) : string := NilZero.string_of_uint (N.to_uint n).

Fixpoint zeros (k : nat) : string :=
  match k with
  | O => EmptyString
  | S k' => String "0" (zeros k')
  end.

(** [boost::format("%|04|") % n]: the decimal numeral of [n], filled on the
    left with zeros up to a width of four characters. *)
Definition format04 (n : N) : string :=
  let s := decimal n in
  (zeros (4 - String.length s) ++ s)%string.

(** ** The objects *)

(** The input handler exposes two signals; the viewer only reads them. *)
Record KeyboardHandler := {
  paused : bool;
  quit : bool
}.

Record SnapImageDrawCallback := {
  _filename : string;
  _snapImageOnNextFrame : bool
}.

Definition setFileName (filename : string) (cb : SnapImageDrawCallback) :=
  {| _filename := filename;
     _snapImageOnNextFrame := _snapImageOnNextFrame cb |}.

Definition setSnapImageOnNextFrame (flag : bool) (cb : SnapImageDrawCallback) :=
  {| _filename := _filename cb;
     _snapImageOnNextFrame := flag |}.

(** The constructor of the callback; the file name starts empty. *)
Definition new_SnapImageDrawCallback : SnapImageDrawCallback :=
  {| _filename := EmptyString; _snapImageOnNextFrame := false |}.

Inductive CameraManipulator := TrackballManipulator.

(** ** What the sources leave out

    [Viewer.cpp] uses a constant of [Viewer.h], the render models of
    [RenderModels.h], [RobogenUtils::createRenderModel] and the scenario.
    None of them is part of the sources at hand: they are taken as
    parameters. [createRenderModel] answers [None] for a null pointer;
    [initRenderModel] answers [None] when the C++ function returns [false],
    and the initialised render model otherwise. *)
Class Externals := {
  MAX_TIME_BETWEEN_FRAMES : float;
  Node : Type;
  Model : Type;
  RenderModel : Type;
  Scenario : Type;
  Terrain : Type;
  BoxObstacle : Type;
  createRenderModel : Model -> option RenderModel;
  initRenderModel : RenderModel -> option RenderModel;
  getRootNode : RenderModel -> Node;
  getTerrain : Scenario -> Terrain;
  getObstacles : Scenario -> list BoxObstacle;
  TerrainRender_getRootNode : Terrain -> Node;
  BoxObstacleRender_getRootNode : BoxObstacle -> Node
}.

Section Embedding.

Context {E : Externals}.

(** What the viewer uses of [osgViewer::Viewer] and of its camera. *)
Record OsgViewer := {
  window : option (Z * Z * Z * Z);
  eventHandlers : nat;
  sceneData : option (list Node);
  realized : bool;
  cameraManipulator : option CameraManipulator;
  allowEventFocus : bool;
  releaseContextAtEndOfFrameHint : bool;
  postDrawCallback : option SnapImageDrawCallback;
  framesRendered : nat
}.

(** [new osgViewer::Viewer()]. *)
Definition new_OsgViewer : OsgViewer :=
  {| window := None;
     eventHandlers := 0%nat;
     sceneData := None;
     realized := false;
     cameraManipulator := None;
     allowEventFocus := true;
     releaseContextAtEndOfFrameHint := true;
     postDrawCallback := None;
     framesRendered := 0%nat |}.

Definition setUpViewInWindow (x y width height : Z) (o : OsgViewer) :=
  {| window := Some (x, y, width, height);
     eventHandlers := eventHandlers o;
     sceneData := sceneData o;
     realized := realized o;
     cameraManipulator := cameraManipulator o;
     allowEventFocus := allowEventFocus o;
     releaseContextAtEndOfFrameHint := releaseContextAtEndOfFrameHint o;
     postDrawCallback := postDrawCallback o;
     framesRendered := framesRendered o |}.

Definition addEventHandler (o : OsgViewer) :=
  {| window := window o;
     eventHandlers := S (eventHandlers o);
     sceneData := sceneData o;
     realized := realized o;
     cameraManipulator := cameraManipulator o;
     allowEventFocus := allowEventFocus o;
     releaseContextAtEndOfFrameHint := releaseContextAtEndOfFrameHint o;
     postDrawCallback := postDrawCallback o;
     framesRendered := framesRendered o |}.

Definition setSceneData (g : list Node) (o : OsgViewer) :=
  {| window := window o;
     eventHandlers := eventHandlers o;
     sceneData := Some g;
     realized := realized o;
     cameraManipulator := cameraManipulator o;
     allowEventFocus := allowEventFocus o;
     releaseContextAtEndOfFrameHint := releaseContextAtEndOfFrameHint o;
     postDrawCallback := postDrawCallback o;
     framesRendered := framesRendered o |}.

Definition realize (o : OsgViewer) :=
  {| window := window o;
     eventHandlers := eventHandlers o;
     sceneData := sceneData o;
     realized := true;
     cameraManipulator := cameraManipulator o;
     allowEventFocus := allowEventFocus o;
     releaseContextAtEndOfFrameHint := releaseContextAtEndOfFrameHint o;
     postDrawCallback := postDrawCallback o;
     framesRendered := framesRendered o |}.

Definition setCameraManipulator (m : CameraManipulator) (o : OsgViewer) :=
  {| window := window o;
     eventHandlers := eventHandlers o;
     sceneData := sceneData o;
     realized := realized o;
     cameraManipulator := Some m;
     allowEventFocus := allowEventFocus o;
     releaseContextAtEndOfFrameHint := releaseContextAtEndOfFrameHint o;
     postDrawCallback := postDrawCallback o;
     framesRendered := framesRendered o |}.

Definition setReleaseContextAtEndOfFrameHint (hint : bool) (o : OsgViewer) :=
  {| window := window o;
     eventHandlers := eventHandlers o;
     sceneData := sceneData o;
     realized := realized o;
     cameraManipulator := cameraManipulator o;
     allowEventFocus := allowEventFocus o;
     releaseContextAtEndOfFrameHint := hint;
     postDrawCallback := postDrawCallback o;
     framesRendered := framesRendered o |}.

Definition setPostDrawCallback (cb : option SnapImageDrawCallback) (o : OsgViewer) :=
  {| window := window o;
     eventHandlers := eventHandlers o;
     sceneData := sceneData o;
     realized := realized o;
     cameraManipulator := cameraManipulator o;
     allowEventFocus := allowEventFocus o;
     releaseContextAtEndOfFrameHint := releaseContextAtEndOfFrameHint o;
     postDrawCallback := cb;
     framesRendered := framesRendered o |}.

Definition countFrame (o : OsgViewer) :=
  {| window := window o;
     eventHandlers := eventHandlers o;
     sceneData := sceneData o;
     realized := realized o;
     cameraManipulator := cameraManipulator o;
     allowEventFocus := allowEventFocus o;
     releaseContextAtEndOfFrameHint := releaseContextAtEndOfFrameHint o;
     postDrawCallback := postDrawCallback o;
     framesRendered := S (framesRendered o) |}.

(** The members of [robogen::Viewer]. [camera] is [viewer->getCamera()] and
    is not kept apart. A member that [init] may leave unassigned is an
    [option]: [None] is the indeterminate value. *)
Record Viewer := {
  viewer : OsgViewer;
  keyboardEvent : KeyboardHandler;
  root : list Node;
  speedFactor : float;
  tick1 : ptime;
  tick2 : option ptime;
  elapsedWallTime : float;
  timeSinceLastFrame : float;
  recording : bool;
  frameCount : option N;
  recordFrequency : option N;
  recordDirectoryName : string
}.

Definition with_viewer (o : OsgViewer) (v : Viewer) :=
  {| viewer := o; keyboardEvent := keyboardEvent v; root := root v;
     speedFactor := speedFactor v; tick1 := tick1 v; tick2 := tick2 v;
     elapsedWallTime := elapsedWallTime v;
     timeSinceLastFrame := timeSinceLastFrame v;
     recording := recording v; frameCount := frameCount v;
     recordFrequency := recordFrequency v;
     recordDirectoryName := recordDirectoryName v |}.

Definition with_keyboardEvent (k : KeyboardHandler) (v : Viewer) :=
  {| viewer := viewer v; keyboardEvent := k; root := root v;
     speedFactor := speedFactor v; tick1 := tick1 v; tick2 := tick2 v;
     elapsedWallTime := elapsedWallTime v;
     timeSinceLastFrame := timeSinceLastFrame v;
     recording := recording v; frameCount := frameCount v;
     recordFrequency := recordFrequency v;
     recordDirectoryName := recordDirectoryName v |}.

Definition with_root (r : list Node) (v : Viewer) :=
  {| viewer := viewer v; keyboardEvent := keyboardEvent v; root := r;
     speedFactor := speedFactor v; tick1 := tick1 v; tick2 := tick2 v;
     elapsedWallTime := elapsedWallTime v;
     timeSinceLastFrame := timeSinceLastFrame v;
     recording := recording v; frameCount := frameCount v;
     recordFrequency := recordFrequency v;
     recordDirectoryName := recordDirectoryName v |}.

Definition with_tick1 (t : ptime) (v : Viewer) :=
  {| viewer := viewer v; keyboardEvent := keyboardEvent v; root := root v;
     speedFactor := speedFactor v; tick1 := t; tick2 := tick2 v;
     elapsedWallTime := elapsedWallTime v;
     timeSinceLastFrame := timeSinceLastFrame v;
     recording := recording v; frameCount := frameCount v;
     recordFrequency := recordFrequency v;
     recordDirectoryName := recordDirectoryName v |}.

Definition with_tick2 (t : ptime) (v : Viewer) :=
  {| viewer := viewer v; keyboardEvent := keyboardEvent v; root := root v;
     speedFactor := speedFactor v; tick1 := tick1 v; tick2 := Some t;
     elapsedWallTime := elapsedWallTime v;
     timeSinceLastFrame := timeSinceLastFrame v;
     recording := recording v; frameCount := frameCount v;
     recordFrequency := recordFrequency v;
     recordDirectoryName := recordDirectoryName v |}.

Definition with_elapsedWallTime (x : float) (v : Viewer) :=
  {| viewer := viewer v; keyboardEvent := keyboardEvent v; root := root v;
     speedFactor := speedFactor v; tick1 := tick1 v; tick2 := tick2 v;
     elapsedWallTime := x;
     timeSinceLastFrame := timeSinceLastFrame v;
     recording := recording v; frameCount := frameCount v;
     recordFrequency := recordFrequency v;
     recordDirectoryName := recordDirectoryName v |}.

Definition with_timeSinceLastFrame (x : float) (v : Viewer) :=
  {| viewer := viewer v; keyboardEvent := keyboardEvent v; root := root v;
     speedFactor := speedFactor v; tick1 := tick1 v; tick2 := tick2 v;
     elapsedWallTime := elapsedWallTime v;
     timeSinceLastFrame := x;
     recording := recording v; frameCount := frameCount v;
     recordFrequency := recordFrequency v;
     recordDirectoryName := recordDirectoryName v |}.

Definition with_frameCount (n : N) (v : Viewer) :=
  {| viewer := viewer v; keyboardEvent := keyboardEvent v; root := root v;
     speedFactor := speedFactor v; tick1 := tick1 v; tick2 := tick2 v;
     elapsedWallTime := elapsedWallTime v;
     timeSinceLastFrame := timeSinceLastFrame v;
     recording := recording v; frameCount := Some n;
     recordFrequency := recordFrequency v;
     recordDirectoryName := recordDirectoryName v |}.

(** ** The world and its monad *)

(** [imageWrites] logs the calls of [osgDB::writeImageFile], oldest first:
    the file name and whether the write succeeded. *)
Record World := {
  this : Viewer;
  cout : list string;
  imageWrites : list (string * bool)
}.

Definition with_this (v : Viewer) (w : World) :=
  {| this := v; cout := cout w; imageWrites := imageWrites w |}.

Definition M (A : Type) : Type := World -> option (A * World).

Definition ret {A} (a : A) : M A := fun w => Some (a, w).

Definition bind {A B} (c : M A) (k : A -> M B) : M B :=
  fun w => match c w with
           | Some (a, w') => k a w'
           | None => None
           end.

(** Undefined behaviour. *)
Definition undefined {A} : M A := fun _ => None.

Definition gets {A} (f : Viewer -> A) : M A := fun w => Some (f (this w), w).

Definition modify (f : Viewer -> Viewer) : M unit :=
  fun w => Some (tt, with_this (f (this w)) w).

(** A read of a member that may be unassigned. *)
Definition read {A} (f : Viewer -> option A) : M A :=
  fun w => match f (this w) with
           | Some a => Some (a, w)
           | None => None
           end.

Definition print (line : string) : M unit :=
  fun w => Some (tt, {| this := this w;
                        cout := (cout w ++ [line])%list;
                        imageWrites := imageWrites w |}).

(** [osgDB::writeImageFile(image, filename)]; [ok] is what the library
    answers. *)
Definition writeImageFile (filename : string) (ok : bool) : M bool :=
  fun w => Some (ok, {| this := this w;
                        cout := cout w;
                        imageWrites := (imageWrites w ++ [(filename, ok)])%list |}).

Declare Scope viewer_scope.
Delimit Scope viewer_scope with viewer.

Notation "x <- c ;; k" := (bind c (fun x => k))
  (at level 61, c at next level, right associativity) : viewer_scope.
Notation "c ;; k" := (bind c (fun _ => k))
  (at level 61, right associativity) : viewer_scope.

Local Open Scope viewer_scope.

Definition when (b : bool) (c : M unit) : M unit := if b then c else ret tt.

(** The short-circuit operators of C++. *)
Definition orM (a b : M bool) : M bool :=
  x <- a ;; if x then ret true else b.

Definition andM (a b : M bool) : M bool :=
  x <- a ;; if x then b else ret false.

Infix "|||" := orM (at level 50, left associativity) : viewer_scope.
Infix "&&&" := andM (at level 40, left associativity) : viewer_scope.


(** ** Construction *)

(** Modelled from the spec: the class [KeyboardHandler] is not part of the
    sources; the spec describes it as an input collaborator that exposes a
    pause and a quit signal, and its constructor receives the
    pause-at-start flag. *)
Definition new_KeyboardHandler (startPaused : bool) : KeyboardHandler :=
  {| paused := startPaused; quit := false |}.

(** [Viewer::init]. [now] is what the clock answers. The members that the
    [if (recording)] block assigns stay unassigned without it (a
    [std::string] is empty from its own constructor). *)
Definition init (now : ptime) (startPaused : bool) (speedFactor : float)
    (recording : bool) (recordFrequency : N) (recordDirectoryName : string)
    : Viewer :=
  let o := addEventHandler (setUpViewInWindow 200 200 800 600 new_OsgViewer) in
  {| viewer :=
       if recording
       then setPostDrawCallback (Some new_SnapImageDrawCallback) o
       else o;
     keyboardEvent := new_KeyboardHandler startPaused;
     root := [];
     speedFactor := speedFactor;
     tick1 := now;
     tick2 := None;
     elapsedWallTime := 0;
     timeSinceLastFrame := 0;
     recording := recording;
     frameCount := if recording then Some 0 else None;
     recordFrequency := if recording then Some recordFrequency else None;
     recordDirectoryName :=
       if recording then recordDirectoryName else EmptyString |}.

(** The three constructors. *)
Definition Viewer_1 (now : ptime) (startPaused : bool) : Viewer :=
  init now startPaused 1 false 0 EmptyString.

Definition Viewer_2 (now : ptime) (startPaused : bool) (speedFactor : float)
    : Viewer :=
  init now startPaused speedFactor false 0 EmptyString.

Definition Viewer_5 (now : ptime) (startPaused : bool) (speedFactor : float)
    (recording : bool) (recordFrequency : N) (recordDirectoryName : string)
    : Viewer :=
  init now startPaused speedFactor recording recordFrequency
    recordDirectoryName.

(** The world in which a viewer starts. *)
Definition new_World (v : Viewer) : World :=
  {| this := v; cout := []; imageWrites := [] |}.

(** ** Recording *)

(** [SnapImageDrawCallback::operator()]; [ok] is the answer of the image
    write. The callback object is returned with its mutable flag. *)
Definition SnapImageDrawCallback_call (ok : bool) (cb : SnapImageDrawCallback)
    : M SnapImageDrawCallback :=
  if negb (_snapImageOnNextFrame cb) then ret cb
  else
    written <- writeImageFile (_filename cb) ok ;;
    when written
      (print ("Saved screen image to `" ++ _filename cb ++ "`")%string) ;;
    ret (setSnapImageOnNextFrame false cb).

(** [osgViewer::Viewer::frame] belongs to the rendering library. Its
    event traversal hands the pending input events to the handlers
    registered with the viewer, here the keyboard handler that [init]
    registers: [handle] is what these events make of the handler, so the
    pause and quit signals can change inside this call, and nowhere else
    in a single thread. It then presents one frame, and the presentation
    runs the post-draw callback of the camera once, when one is
    installed; [ok] is the answer of the image write. *)
Definition viewer_frame (handle : KeyboardHandler -> KeyboardHandler)
    (ok : bool) : M unit :=
  modify (fun v => with_keyboardEvent (handle (keyboardEvent v)) v) ;;
  modify (fun v => with_viewer (countFrame (viewer v)) v) ;;
  hook <- gets (fun v => postDrawCallback (viewer v)) ;;
  match hook with
  | None => ret tt
  | Some cb =>
      cb' <- SnapImageDrawCallback_call ok cb ;;
      modify (fun v => with_viewer (setPostDrawCallback (Some cb') (viewer v)) v)
  end.

(** The name built in the string stream of [record]. *)
Definition captureName (dir : string) (count : N) : string :=
  (dir ++ "/" ++ format04 count ++ ".jpg")%string.

(** [Viewer::record]. *)
Definition record : M unit :=
  snapImageDrawCallback <- gets (fun v => postDrawCallback (viewer v)) ;;
  match snapImageDrawCallback with
  | None => ret tt
  | Some cb =>
      dir <- gets recordDirectoryName ;;
      count <- read frameCount ;;
      let cb1 := setFileName (captureName dir count) cb in
      let cb2 := setSnapImageOnNextFrame true cb1 in
      modify (fun v => with_viewer (setPostDrawCallback (Some cb2) (viewer v)) v) ;;
      modify (with_frameCount (uint_incr count))
  end.

(** ** Frame pacing *)

Definition isPaused : M bool := gets (fun v => paused (keyboardEvent v)).

(** What the environment decides during one call of [frame]: the two
    readings of the clock and, should the call present a frame, what the
    input events of its event traversal make of the keyboard handler
    and the answer of the image write. *)
Record FrameEnv := {
  clock1 : ptime;
  clock2 : ptime;
  writeOk : bool;
  events : KeyboardHandler -> KeyboardHandler
}.

(** [numTimeSteps % recordFrequency == 0]; a zero divisor is undefined. *)
Definition onCadence (numTimeSteps : N) : M bool :=
  frequency <- read recordFrequency ;;
  if frequency =? 0 then undefined
  else ret (numTimeSteps mod frequency =? 0).

(** [simulatedTime > (elapsedWallTime * speedFactor)]. *)
Definition aheadOfWallClock (simulatedTime : float) : M bool :=
  gets (fun v => (elapsedWallTime v * speedFactor v <? simulatedTime)%float).

(** [timeSinceLastFrame >= MAX_TIME_BETWEEN_FRAMES]. *)
Definition starved : M bool :=
  gets (fun v => (MAX_TIME_BETWEEN_FRAMES <=? timeSinceLastFrame v)%float).

(** The first lines of [frame], up to the second reading of the clock. *)
Definition updateClock (env : FrameEnv) : M unit :=
  modify (with_tick2 (clock1 env)) ;;
  t2 <- read tick2 ;;
  t1 <- gets tick1 ;;
  let diff := (t2 - t1)%Z in
  p <- isPaused ;;
  when (negb p)
    (let frameTime := (double_of_int (total_milliseconds diff) / 1000)%float in
     modify (fun v => with_elapsedWallTime (elapsedWallTime v + frameTime) v) ;;
     modify (fun v => with_timeSinceLastFrame (timeSinceLastFrame v + frameTime) v)) ;;
  modify (with_tick1 (clock2 env)).

(** [Viewer::frame]. The value [leave] tells whether the inner [if]
    returned [false]. *)
Definition frame (env : FrameEnv) (simulatedTime : float) (numTimeSteps : N)
    : M bool :=
  updateClock env ;;
  draw <- (isPaused
           ||| (gets recording &&& onCadence numTimeSteps)
           ||| aheadOfWallClock simulatedTime
           ||| starved) ;;
  leave <- (if draw
            then viewer_frame (events env) (writeOk env) ;;
                 modify (with_timeSinceLastFrame 0) ;;
                 (isPaused ||| aheadOfWallClock simulatedTime)
            else ret false) ;;
  if leave then ret false
  else
    capture <- (gets recording &&& onCadence numTimeSteps) ;;
    when capture record ;;
    ret true.

(** One call of the simulation loop: what the environment decides and
    the arguments. Between two calls the simulation steps and nothing
    touches the viewer. *)
Record Call := {
  call_env : FrameEnv;
  call_simulatedTime : float;
  call_numTimeSteps : N
}.

Definition step (c : Call) : M bool :=
  frame (call_env c) (call_simulatedTime c) (call_numTimeSteps c).

(** A sequence of calls; the answers of [frame] in order. *)
Fixpoint run (calls : list Call) : M (list bool) :=
  match calls with
  | [] => ret []
  | c :: rest =>
      r <- step c ;;
      rs <- run rest ;;
      ret (r :: rs)
  end.

(** ** Scene composition *)

Definition addChild (child : Node) : M unit :=
  modify (fun v => with_root (root v ++ [child])%list v).

(** The loop over the body parts, from index [i] on; [renderModels] is the
    local vector. The answer [false] is the early [return false]. *)
Fixpoint addBodyParts (bodyParts : list Model) (i : nat)
    (renderModels : list RenderModel) : M bool :=
  match bodyParts with
  | [] => ret true
  | part :: rest =>
      match createRenderModel part with
      | None =>
          print ("Cannot create a render model for model "
                 ++ decimal (N.of_nat i))%string ;;
          ret false
      | Some renderModel =>
          match initRenderModel renderModel with
          | None =>
              print "Cannot initialize a render model for one of the components. " ;;
              print "Please check that the models/ folder is in the same folder of this executable." ;;
              ret false
          | Some renderModel' =>
              let renderModels' := (renderModels ++ [renderModel'])%list in
              match nth_error renderModels' i with
              | None => undefined
              | Some r =>
                  addChild (getRootNode r) ;;
                  addBodyParts rest (S i) renderModels'
              end
          end
      end
  end.

Fixpoint addObstacles (obstacles : list BoxObstacle) : M unit :=
  match obstacles with
  | [] => ret tt
  | obstacle :: rest =>
      addChild (BoxObstacleRender_getRootNode obstacle) ;;
      addObstacles rest
  end.

(** [Viewer::configureScene]. *)
Definition configureScene (bodyParts : list Model) (scenario : Scenario)
    : M bool :=
  complete <- addBodyParts bodyParts 0 [] ;;
  if negb complete then ret false
  else
    addChild (TerrainRender_getRootNode (getTerrain scenario)) ;;
    addObstacles (getObstacles scenario) ;;
    modify (fun v => with_viewer (setSceneData (root v) (viewer v)) v) ;;
    modify (fun v => with_viewer (realize (viewer v)) v) ;;
    noManipulator <- gets (fun v =>
      match cameraManipulator (viewer v) with
      | None => allowEventFocus (viewer v)
      | Some _ => false
      end) ;;
    when noManipulator
      (modify (fun v => with_viewer
                          (setCameraManipulator TrackballManipulator (viewer v)) v)) ;;
    modify (fun v => with_viewer
                       (setReleaseContextAtEndOfFrameHint false (viewer v)) v) ;;
    print "Press P to pause/unpause the simulation." ;;
    print "Press Q to quit the visualizer." ;;
    ret true.

End Embedding.

(** ** The outcomes of the member functions

    The states that the computations above reach, as functions of the
    state they start in. The lemmas of the second part show that the
    computations reach them; the theorems speak of the computations. *)

Section Outcomes.

Context {E : Externals}.

(** The wall time that [frame] adds to its two accumulators. *)
Definition frameTime (env : FrameEnv) (v : Viewer) : float :=
  (double_of_int (total_milliseconds (clock1 env - tick1 v)) / 1000)%float.

(** The viewer when [frame] decides whether to draw. *)
Definition atDecision (env : FrameEnv) (v : Viewer) : Viewer :=
  let v2 := with_tick2 (clock1 env) v in
  with_tick1 (clock2 env)
    (if paused (keyboardEvent v) then v2
     else with_timeSinceLastFrame (timeSinceLastFrame v + frameTime env v)
            (with_elapsedWallTime (elapsedWallTime v + frameTime env v) v2)).

(** [recording && (numTimeSteps % recordFrequency == 0)]. *)
Definition cadence (n : N) (v : Viewer) : option bool :=
  if recording v then
    match recordFrequency v with
    | None => None
    | Some k => if k =? 0 then None else Some (n mod k =? 0)
    end
  else Some false.

Definition ahead (st : float) (v : Viewer) : bool :=
  (elapsedWallTime v * speedFactor v <? st)%float.

Definition starving (v : Viewer) : bool :=
  (MAX_TIME_BETWEEN_FRAMES <=? timeSinceLastFrame v)%float.

(** The condition of the outer [if] of [frame]. *)
Definition drawDecision (st : float) (n : N) (v : Viewer) : option bool :=
  if paused (keyboardEvent v) then Some true
  else match cadence n v with
       | None => None
       | Some true => Some true
       | Some false => Some (ahead st v || starving v)
       end.

Definition answer {A} (o : option A) (w : World) : option (A * World) :=
  match o with
  | Some a => Some (a, w)
  | None => None
  end.

(** The world after one presented frame. *)
Definition presented (handle : KeyboardHandler -> KeyboardHandler)
    (ok : bool) (w : World) : World :=
  let v0 := with_keyboardEvent (handle (keyboardEvent (this w))) (this w) in
  let v := with_viewer (countFrame (viewer (this w))) v0 in
  match postDrawCallback (viewer (this w)) with
  | None => with_this v w
  | Some cb =>
      if _snapImageOnNextFrame cb then
        {| this := with_viewer
                     (setPostDrawCallback
                        (Some (setSnapImageOnNextFrame false cb)) (viewer v)) v;
           cout := if ok
                   then (cout w
                         ++ [("Saved screen image to `" ++ _filename cb ++ "`")%string])%list
                   else cout w;
           imageWrites := (imageWrites w ++ [(_filename cb, ok)])%list |}
      else with_this (with_viewer (setPostDrawCallback (Some cb) (viewer v)) v) w
  end.

(** The world after the drawing block of [frame]. *)
Definition drawn (handle : KeyboardHandler -> KeyboardHandler) (ok : bool)
    (w : World) : World :=
  with_this (with_timeSinceLastFrame 0 (this (presented handle ok w)))
    (presented handle ok w).

(** The viewer after [record] has armed the callback [cb]. *)
Definition armed (cb : SnapImageDrawCallback) (count : N) (v : Viewer) : Viewer :=
  with_frameCount (uint_incr count)
    (with_viewer
       (setPostDrawCallback
          (Some (setSnapImageOnNextFrame true
                   (setFileName (captureName (recordDirectoryName v) count) cb)))
          (viewer v)) v).

Definition recorded (w : World) : option World :=
  match postDrawCallback (viewer (this w)) with
  | None => Some w
  | Some cb =>
      match frameCount (this w) with
      | None => None
      | Some count => Some (with_this (armed cb count (this w)) w)
      end
  end.

(** What follows the drawing block of [frame]. *)
Definition afterDraw (n : N) (w : World) : option (bool * World) :=
  match cadence n (this w) with
  | None => None
  | Some true =>
      match recorded w with
      | Some w' => Some (true, w')
      | None => None
      end
  | Some false => Some (true, w)
  end.

(** The world after the last lines of [frame], where [c] tells whether a
    capture is due. *)
Definition captured (c : bool) (w : World) : World :=
  if c then match recorded w with
            | Some w' => w'
            | None => w
            end
  else w.

Definition framed (env : FrameEnv) (st : float) (n : N) (w : World)
    : option (bool * World) :=
  let w1 := with_this (atDecision env (this w)) w in
  match drawDecision st n (this w1) with
  | None => None
  | Some true =>
      let w2 := drawn (events env) (writeOk env) w1 in
      if paused (keyboardEvent (this w2)) || ahead st (this w2)
      then Some (false, w2)
      else afterDraw n w2
  | Some false => afterDraw n w1
  end.

(** ** Notions of the statements *)

(** A viewer whose recording members are assigned and whose record
    frequency is not zero, when it records. *)
Definition configured (v : Viewer) : Prop :=
  recording v = true ->
  (exists k, recordFrequency v = Some k /\ k <> 0) /\
  (exists c, frameCount v = Some c).

(** The call of [frame] from [w] to [w'] presented a frame. *)
Definition rendered (w w' : World) : Prop :=
  framesRendered (viewer (this w')) = S (framesRendered (viewer (this w))).

(** The capture of the post-draw callback is armed. *)
Definition captureArmed (v : Viewer) : bool :=
  match postDrawCallback (viewer v) with
  | Some cb => _snapImageOnNextFrame cb
  | None => false
  end.

(** The members that [frame] never assigns, and the recording members
    that stay assigned. *)
Definition sameConfiguration (v v' : Viewer) : Prop :=
  speedFactor v' = speedFactor v
  /\ recording v' = recording v
  /\ recordFrequency v' = recordFrequency v
  /\ recordDirectoryName v' = recordDirectoryName v
  /\ root v' = root v
  /\ (frameCount v <> None -> frameCount v' <> None)
  /\ (postDrawCallback (viewer v) = None <-> postDrawCallback (viewer v') = None).

(** ** Notions of the recorder *)

(** The number that a string of decimal digits denotes. *)
Definition readDecimal (s : string) : option N :=
  option_map N.of_uint (NilEmpty.uint_of_string s).

(** A call with the answer [r] arms a capture when the viewer records at
    the frequency [k]. *)
Definition captureDue (k : N) (c : Call) (r : bool) : bool :=
  r && (call_numTimeSteps c mod k =? 0).

(** The number of captures that a sequence of calls with the answers [rs]
    arms. *)
Fixpoint captures (k : N) (calls : list Call) (rs : list bool) : nat :=
  match calls, rs with
  | c :: calls', r :: rs' =>
      (if captureDue k c r then 1 else 0) + captures k calls' rs'
  | _, _ => 0
  end.


(** The names of the first [count] captures into [dir]. *)
Definition captureNames (dir : string) (count : nat) : list string :=
  map (fun i => captureName dir (N.of_nat i mod UINT_MODULUS)) (seq 0 count).

(** The answer and the viewer of an outcome, without standard output and
    the log of the image writes. *)
Definition viewerOf (o : option (bool * World))
    : option (bool * Viewer) :=
  match o with
  | Some (r, w) => Some (r, this w)
  | None => None
  end.

(** The same call of [frame] with the other answer of the image write. *)
Definition otherWrite (env : FrameEnv) : FrameEnv :=
  {| clock1 := clock1 env;
     clock2 := clock2 env;
     writeOk := negb (writeOk env);
     events := events env |}.

(** The state of a recording viewer that has armed [m] captures into
    [dir] at the frequency [k]: the count, the pending capture and the
    log of the image writes. *)
Definition recordingState (dir : string) (k : N) (m : nat) (w : World) : Prop :=
  recording (this w) = true
  /\ recordFrequency (this w) = Some k
  /\ recordDirectoryName (this w) = dir
  /\ frameCount (this w) = Some (N.of_nat m mod UINT_MODULUS)
  /\ exists cb,
       postDrawCallback (viewer (this w)) = Some cb
       /\ (_snapImageOnNextFrame cb = true ->
           exists m', m = S m'
                      /\ _filename cb
                         = captureName dir (N.of_nat m' mod UINT_MODULUS))
       /\ map fst (imageWrites w)
          = captureNames dir (if _snapImageOnNextFrame cb then pred m else m).

(** The file name that the post-draw callback holds. *)
Definition pendingName (v : Viewer) : string :=
  match postDrawCallback (viewer v) with
  | Some cb => _filename cb
  | None => EmptyString
  end.

(** ** Notions of the scene *)

(** The render model of a body part, when its construction and its
    initialisation both succeed. *)
Definition renderable (part : Model) : option RenderModel :=
  match createRenderModel part with
  | Some renderModel => initRenderModel renderModel
  | None => None
  end.

End Outcomes.

(** The draw decision in the words of the specification. *)
Definition shouldDraw (paused recordingEnabled : bool)
    (timestepIndex recordFrequency : N)
    (simulatedTime elapsedWallTime speedFactor : float)
    (timeSinceLastFrame starvationBound : float) : bool :=
  paused
  || (recordingEnabled && (timestepIndex mod recordFrequency =? 0))
  || (elapsedWallTime * speedFactor <? simulatedTime)%float
  || (starvationBound <=? timeSinceLastFrame)%float.

(** ** The identifier of a scripted scenario

    From [src/scenario/JSScenario.cpp], [JSScenario::createScenario]: the
    identifier under which the scenario object is registered. *)

(** [std::replace(first, last, old, new)] on a string. *)
Fixpoint replace (old new : ascii) (s : string) : string :=
  match s with
  | EmptyString => EmptyString
  | String a rest =>
      String (if Ascii.eqb a old then new else a) (replace old new rest)
  end.

(** The identifier made of the text [uuid] that the stream prints for the
    generated uuid. *)
Definition scenarioId (uuid : string) : string :=
  replace "-" "_" ("_myUUID_" ++ uuid).

(** The character [a] occurs in [s]. *)
Fixpoint occurs (a : ascii) (s : string) : bool :=
  match s with
  | EmptyString => false
  | String b rest => Ascii.eqb a b || occurs a rest
  end.

(** ** A concrete setting

    A robot of a few kinds of parts, on a flat terrain with numbered
    obstacles; used for the concrete runs below. A part of unknown kind has
    no render model, and the mesh of a damaged part fails to load. The
    starvation bound is a twentieth of a second. *)

Inductive Part := CoreComponent | Hinge | Wheel | UnknownKind | DamagedMesh.

Inductive SceneNode :=
| PartNode (p : Part)
| TerrainNode
| ObstacleNode (k : nat).

Definition twentieth : float := Eval vm_compute in (1 / 20)%float.

Definition arena : Externals :=
  {| MAX_TIME_BETWEEN_FRAMES := twentieth;
     Node := SceneNode;
     Model := Part;
     RenderModel := Part;
     Scenario := list nat;
     Terrain := unit;
     BoxObstacle := nat;
     createRenderModel := fun p =>
       match p with UnknownKind => None | _ => Some p end;
     initRenderModel := fun p =>
       match p with DamagedMesh => None | _ => Some p end;
     getRootNode := PartNode;
     getTerrain := fun _ => tt;
     getObstacles := fun s => s;
     TerrainRender_getRootNode := fun _ => TerrainNode;
     BoxObstacleRender_getRootNode := ObstacleNode |}.

(** The environment of a call at [t] microseconds, with both clock
    readings at the same instant and no key pressed. *)
Definition envAt (t : Z) (ok : bool) : FrameEnv :=
  {| clock1 := t; clock2 := t; writeOk := ok; events := fun k => k |}.

(** The input events that leave the pause signal at [p]. *)
Definition pauseAt (p : bool) (k : KeyboardHandler) : KeyboardHandler :=
  {| paused := p; quit := quit k |}.

(** The environment of a call at [t] microseconds during whose event
    traversal, should it present a frame, the keys leave the pause signal
    at [p]. *)
Definition envPausing (p : bool) (t : Z) (ok : bool) : FrameEnv :=
  {| clock1 := t; clock2 := t; writeOk := ok; events := pauseAt p |}.

(** A call of the simulation loop in that environment. *)
Definition callAt (p : bool) (t : Z) (ok : bool) (simulatedTime : float)
    (numTimeSteps : N) : Call :=
  {| call_env := envPausing p t ok;
     call_simulatedTime := simulatedTime;
     call_numTimeSteps := numTimeSteps |}.

(** A viewer without recording, at real-time speed. *)
Definition plain (startPaused : bool) : World :=
  new_World (E := arena) (Viewer_1 0%Z startPaused).

(** A recording viewer that captures every step into [out]. *)
Definition recorder (startPaused : bool) : World :=
  new_World (E := arena) (Viewer_5 0%Z startPaused 1 true 1 "out").
(** * Properties *)

Section Properties.

Context {E : Externals}.

(** ** The computations reach the outcomes *)

Lemma orM_run (a b : M bool) w :
  orM a b w = match a w with
              | Some (true, w') => Some (true, w')
              | Some (false, w') => b w'
              | None => None
              end.
Proof. unfold orM, bind, ret. destruct (a w) as [[[|] ?]|]; reflexivity. Qed.

Lemma isPaused_run w : isPaused w = Some (paused (keyboardEvent (this w)), w).
Proof. reflexivity. Qed.

Lemma aheadOfWallClock_run st w :
  aheadOfWallClock st w = Some (ahead st (this w), w).
Proof. reflexivity. Qed.

Lemma starved_run w : starved w = Some (starving (this w), w).
Proof. reflexivity. Qed.

Lemma updateClock_run env w :
  updateClock env w = Some (tt, with_this (atDecision env (this w)) w).
Proof.
  unfold updateClock, atDecision, frameTime, bind, modify, read, gets,
    isPaused, when, ret.
  cbn. destruct (paused (keyboardEvent (this w))); reflexivity.
Qed.

Lemma cadence_run n w :
  andM (gets recording) (onCadence n) w = answer (cadence n (this w)) w.
Proof.
  unfold andM, onCadence, cadence, bind, gets, read, ret, undefined, answer.
  cbn.
  destruct (recording (this w)); [|reflexivity].
  destruct (recordFrequency (this w)) as [k|]; [|reflexivity].
  destruct (k =? 0); reflexivity.
Qed.

Lemma drawDecision_run st n w :
  orM (orM (orM isPaused (andM (gets recording) (onCadence n)))
           (aheadOfWallClock st)) starved w
  = answer (drawDecision st n (this w)) w.
Proof.
  rewrite !orM_run, isPaused_run, cadence_run. unfold drawDecision.
  destruct (paused (keyboardEvent (this w))); [reflexivity|].
  destruct (cadence n (this w)) as [[|]|]; try reflexivity.
  cbn [answer]. rewrite aheadOfWallClock_run.
  destruct (ahead st (this w)); [reflexivity|].
  rewrite starved_run. reflexivity.
Qed.

Lemma leave_run st w :
  orM isPaused (aheadOfWallClock st) w
  = Some (paused (keyboardEvent (this w)) || ahead st (this w), w).
Proof.
  rewrite orM_run, isPaused_run.
  destruct (paused (keyboardEvent (this w))); reflexivity.
Qed.

Lemma SnapImageDrawCallback_call_idle ok cb w :
  _snapImageOnNextFrame cb = false ->
  SnapImageDrawCallback_call ok cb w = Some (cb, w).
Proof. intros H. unfold SnapImageDrawCallback_call. rewrite H. reflexivity. Qed.

Lemma viewer_frame_run h ok w :
  viewer_frame h ok w = Some (tt, presented h ok w).
Proof.
  unfold viewer_frame, presented, SnapImageDrawCallback_call, bind, modify, gets.
  cbn -[String.append].
  destruct (postDrawCallback (viewer (this w))) as [cb|]; [|reflexivity].
  destruct (_snapImageOnNextFrame cb); [|reflexivity].
  destruct ok; reflexivity.
Qed.

Lemma record_run w :
  record w = match recorded w with
             | Some w' => Some (tt, w')
             | None => None
             end.
Proof.
  unfold record, recorded, armed, bind, modify, gets, read, ret.
  cbn -[captureName uint_incr].
  destruct (postDrawCallback (viewer (this w))) as [cb|]; [|reflexivity].
  destruct (frameCount (this w)); reflexivity.
Qed.

Lemma afterDraw_run n w :
  bind (andM (gets recording) (onCadence n))
       (fun capture => bind (when capture record) (fun _ => ret true)) w
  = afterDraw n w.
Proof.
  unfold bind at 1. rewrite cadence_run. unfold afterDraw.
  destruct (cadence n (this w)) as [[|]|]; try reflexivity.
  cbn [answer when]. unfold bind. rewrite record_run.
  destruct (recorded w); reflexivity.
Qed.

Lemma frame_run env st n w : frame env st n w = framed env st n w.
Proof.
  unfold frame, framed. unfold bind at 1. rewrite updateClock_run.
  unfold bind at 1. rewrite drawDecision_run.
  set (w1 := with_this (atDecision env (this w)) w).
  destruct (drawDecision st n (this w1)) as [[|]|]; cbn [answer].
  - unfold bind at 1 2 3. rewrite viewer_frame_run.
    change (modify (with_timeSinceLastFrame 0) (presented (events env) (writeOk env) w1))
      with (Some (tt, drawn (events env) (writeOk env) w1)).
    cbv iota beta. rewrite leave_run.
    destruct (paused _ || ahead _ _); [reflexivity|].
    apply afterDraw_run.
  - unfold bind at 1. unfold ret at 1. apply afterDraw_run.
  - reflexivity.
Qed.

(** ** What the outcomes keep and change *)

Lemma atDecision_keeps env v :
  viewer (atDecision env v) = viewer v
  /\ keyboardEvent (atDecision env v) = keyboardEvent v
  /\ speedFactor (atDecision env v) = speedFactor v
  /\ recording (atDecision env v) = recording v
  /\ frameCount (atDecision env v) = frameCount v
  /\ recordFrequency (atDecision env v) = recordFrequency v
  /\ recordDirectoryName (atDecision env v) = recordDirectoryName v
  /\ root (atDecision env v) = root v.
Proof.
  unfold atDecision. destruct (paused (keyboardEvent v)); cbn; repeat split.
Qed.

Lemma atDecision_clock env v :
  elapsedWallTime (atDecision env v)
  = (if paused (keyboardEvent v) then elapsedWallTime v
     else (elapsedWallTime v + frameTime env v)%float)
  /\ timeSinceLastFrame (atDecision env v)
     = (if paused (keyboardEvent v) then timeSinceLastFrame v
        else (timeSinceLastFrame v + frameTime env v)%float)
  /\ tick1 (atDecision env v) = clock2 env.
Proof.
  unfold atDecision. destruct (paused (keyboardEvent v)); cbn; repeat split.
Qed.

Lemma cadence_atDecision env n v : cadence n (atDecision env v) = cadence n v.
Proof.
  destruct (atDecision_keeps env v) as (_ & _ & _ & Hr & _ & Hf & _).
  unfold cadence. rewrite Hr, Hf. reflexivity.
Qed.

(** A presented frame changes the rendering library's viewer and the
    keyboard handler only. *)
Lemma presented_this h ok w :
  this (presented h ok w)
  = with_viewer (viewer (this (presented h ok w)))
      (with_keyboardEvent (h (keyboardEvent (this w))) (this w)).
Proof.
  unfold presented.
  destruct (postDrawCallback (viewer (this w))) as [cb|]; [|reflexivity].
  destruct (_snapImageOnNextFrame cb); reflexivity.
Qed.

Lemma presented_framesRendered h ok w :
  framesRendered (viewer (this (presented h ok w)))
  = S (framesRendered (viewer (this w))).
Proof.
  unfold presented.
  destruct (postDrawCallback (viewer (this w))) as [cb|]; [|reflexivity].
  destruct (_snapImageOnNextFrame cb); reflexivity.
Qed.

Lemma presented_postDrawCallback h ok w :
  postDrawCallback (viewer (this (presented h ok w)))
  = option_map (setSnapImageOnNextFrame false)
      (postDrawCallback (viewer (this w))).
Proof.
  unfold presented.
  destruct (postDrawCallback (viewer (this w))) as [[name flag]|] eqn:Hcb;
    [|cbn; rewrite Hcb; reflexivity].
  destruct flag; reflexivity.
Qed.

Lemma presented_imageWrites h ok w :
  imageWrites (presented h ok w)
  = match postDrawCallback (viewer (this w)) with
    | Some cb =>
        if _snapImageOnNextFrame cb
        then (imageWrites w ++ [(_filename cb, ok)])%list
        else imageWrites w
    | None => imageWrites w
    end.
Proof.
  unfold presented.
  destruct (postDrawCallback (viewer (this w))) as [cb|]; [|reflexivity].
  destruct (_snapImageOnNextFrame cb); reflexivity.
Qed.

Lemma drawn_keeps h ok w :
  keyboardEvent (this (drawn h ok w)) = h (keyboardEvent (this w))
  /\ speedFactor (this (drawn h ok w)) = speedFactor (this w)
  /\ elapsedWallTime (this (drawn h ok w)) = elapsedWallTime (this w)
  /\ recording (this (drawn h ok w)) = recording (this w)
  /\ frameCount (this (drawn h ok w)) = frameCount (this w)
  /\ recordFrequency (this (drawn h ok w)) = recordFrequency (this w)
  /\ recordDirectoryName (this (drawn h ok w)) = recordDirectoryName (this w)
  /\ root (this (drawn h ok w)) = root (this w).
Proof.
  unfold drawn. cbn. rewrite presented_this. cbn. repeat split.
Qed.

Lemma drawn_changes h ok w :
  timeSinceLastFrame (this (drawn h ok w)) = 0%float
  /\ rendered w (drawn h ok w)
  /\ captureArmed (this (drawn h ok w)) = false
  /\ imageWrites (drawn h ok w) = imageWrites (presented h ok w).
Proof.
  unfold drawn, rendered, captureArmed. cbn.
  rewrite presented_framesRendered, presented_postDrawCallback.
  repeat split.
  destruct (postDrawCallback (viewer (this w))); reflexivity.
Qed.

Lemma cadence_drawn h ok n w : cadence n (this (drawn h ok w)) = cadence n (this w).
Proof.
  destruct (drawn_keeps h ok w) as (_ & _ & _ & Hr & _ & Hf & _).
  unfold cadence. rewrite Hr, Hf. reflexivity.
Qed.

Lemma ahead_drawn h ok st w : ahead st (this (drawn h ok w)) = ahead st (this w).
Proof.
  destruct (drawn_keeps h ok w) as (_ & Hs & He & _).
  unfold ahead. rewrite Hs, He. reflexivity.
Qed.


Lemma recorded_keeps w w' :
  recorded w = Some w' ->
  keyboardEvent (this w') = keyboardEvent (this w)
  /\ speedFactor (this w') = speedFactor (this w)
  /\ elapsedWallTime (this w') = elapsedWallTime (this w)
  /\ timeSinceLastFrame (this w') = timeSinceLastFrame (this w)
  /\ recording (this w') = recording (this w)
  /\ recordFrequency (this w') = recordFrequency (this w)
  /\ recordDirectoryName (this w') = recordDirectoryName (this w)
  /\ root (this w') = root (this w)
  /\ framesRendered (viewer (this w')) = framesRendered (viewer (this w))
  /\ imageWrites w' = imageWrites w
  /\ cout w' = cout w.
Proof.
  unfold recorded.
  destruct (postDrawCallback (viewer (this w))) as [cb|].
  - destruct (frameCount (this w)) as [count|]; [|discriminate].
    intros [= <-]. cbn. repeat split.
  - intros [= <-]. repeat split.
Qed.

Lemma captured_keeps c w :
  keyboardEvent (this (captured c w)) = keyboardEvent (this w)
  /\ speedFactor (this (captured c w)) = speedFactor (this w)
  /\ elapsedWallTime (this (captured c w)) = elapsedWallTime (this w)
  /\ timeSinceLastFrame (this (captured c w)) = timeSinceLastFrame (this w)
  /\ recording (this (captured c w)) = recording (this w)
  /\ recordFrequency (this (captured c w)) = recordFrequency (this w)
  /\ recordDirectoryName (this (captured c w)) = recordDirectoryName (this w)
  /\ root (this (captured c w)) = root (this w)
  /\ framesRendered (viewer (this (captured c w)))
     = framesRendered (viewer (this w))
  /\ imageWrites (captured c w) = imageWrites w
  /\ cout (captured c w) = cout w.
Proof.
  unfold captured. destruct c; [|repeat split].
  destruct (recorded w) as [w'|] eqn:Hr; [|repeat split].
  exact (recorded_keeps w w' Hr).
Qed.

Lemma configured_cadence n v :
  configured v -> exists c, cadence n v = Some c.
Proof.
  intros H. unfold cadence. destruct (recording v) eqn:Hr; [|eauto].
  destruct (H Hr) as ((k & -> & Hk) & _).
  apply N.eqb_neq in Hk. rewrite Hk. eauto.
Qed.

Lemma cadence_recording n v : cadence n v = Some true -> recording v = true.
Proof. unfold cadence. destruct (recording v); [reflexivity|discriminate]. Qed.

Lemma afterDraw_captured n w c :
  (recording (this w) = true -> frameCount (this w) <> None) ->
  cadence n (this w) = Some c ->
  afterDraw n w = Some (true, captured c w).
Proof.
  intros Hfc Hc. unfold afterDraw, captured. rewrite Hc.
  destruct c; [|reflexivity].
  apply cadence_recording in Hc. specialize (Hfc Hc).
  unfold recorded.
  destruct (postDrawCallback (viewer (this w))); [|reflexivity].
  destruct (frameCount (this w)); [reflexivity|congruence].
Qed.

(** The closed form of a call of [frame] on a configured viewer: [d] is
    the draw decision and [c] tells whether a capture is due. The pause
    signal that decides the answer is the one that the event traversal
    of the presented frame leaves. *)
Lemma frame_configured env st n w :
  configured (this w) ->
  let w1 := with_this (atDecision env (this w)) w in
  exists d c,
    drawDecision st n (this w1) = Some d
    /\ cadence n (this w) = Some c
    /\ let w2 := if d then drawn (events env) (writeOk env) w1 else w1 in
       let leave :=
         d && (paused (events env (keyboardEvent (this w)))
               || ahead st (this w1)) in
       frame env st n w
       = Some (negb leave, if leave then w2 else captured c w2).
Proof.
  intros Hcfg w1.
  destruct (configured_cadence n _ Hcfg) as (c & Hc).
  destruct (atDecision_keeps env (this w)) as (_ & Hkb & _ & Hrec & Hfc & _).
  assert (Hc1 : cadence n (this w1) = Some c)
    by (unfold w1; cbn [this with_this]; rewrite cadence_atDecision; exact Hc).
  assert (Hfc1 : recording (this w1) = true -> frameCount (this w1) <> None).
  { unfold w1; cbn [this with_this]. rewrite Hrec, Hfc. intros Hr.
    destruct (Hcfg Hr) as (_ & (count & ->)). discriminate. }
  assert (Hkb1 : keyboardEvent (this w1) = keyboardEvent (this w))
    by (unfold w1; cbn [this with_this]; exact Hkb).
  rewrite frame_run. unfold framed. fold w1.
  unfold drawDecision. rewrite Hc1, Hkb1.
  assert (Hd : forall d : bool, @eq (option (bool * World))
    (if d then
       let w2 := drawn (events env) (writeOk env) w1 in
       if paused (keyboardEvent (this w2)) || ahead st (this w2)
       then Some (false, w2) else afterDraw n w2
     else afterDraw n w1)
      (let w2 := if d then drawn (events env) (writeOk env) w1 else w1 in
       let leave :=
         d && (paused (events env (keyboardEvent (this w)))
               || ahead st (this w1)) in
       Some (negb leave, if leave then w2 else captured c w2))).
  { intros [|]; cbv zeta; cbn [andb negb].
    - destruct (drawn_keeps (events env) (writeOk env) w1)
        as (Hk2 & _ & _ & Hr2 & Hf2 & _).
      rewrite ahead_drawn, Hk2, Hkb1.
      destruct (paused (events env (keyboardEvent (this w)))
                || ahead st (this w1));
        [reflexivity|].
      cbn [negb]. apply afterDraw_captured.
      + rewrite Hr2, Hf2. exact Hfc1.
      + rewrite cadence_drawn. exact Hc1.
    - apply afterDraw_captured; assumption. }
  destruct (paused (keyboardEvent (this w))).
  - exists true, c. repeat split; [exact Hc|]. exact (Hd true).
  - destruct c.
    + exists true, true. repeat split; [exact Hc|]. exact (Hd true).
    + exists (ahead st (this w1) || starving (this w1)), false.
      repeat split; [exact Hc|]. exact (Hd _).
Qed.

Lemma this_decision env w :
  this (with_this (atDecision env (this w)) w) = atDecision env (this w).
Proof. reflexivity. Qed.

Lemma drawDecision_shouldDraw st n k v :
  (recording v = true -> recordFrequency v = Some k /\ k <> 0) ->
  drawDecision st n v
  = Some (shouldDraw (paused (keyboardEvent v)) (recording v) n k st
            (elapsedWallTime v) (speedFactor v) (timeSinceLastFrame v)
            MAX_TIME_BETWEEN_FRAMES).
Proof.
  intros H. unfold drawDecision, shouldDraw, cadence, ahead, starving.
  destruct (paused (keyboardEvent v)); [reflexivity|].
  destruct (recording v); [|reflexivity].
  destruct H as (-> & Hk); [reflexivity|].
  apply N.eqb_neq in Hk. rewrite Hk. cbn [orb andb].
  destruct (n mod k =? 0); reflexivity.
Qed.

Lemma framesRendered_decision env w :
  framesRendered (viewer (this (with_this (atDecision env (this w)) w)))
  = framesRendered (viewer (this w)).
Proof.
  cbn [this with_this].
  destruct (atDecision_keeps env (this w)) as (-> & _). reflexivity.
Qed.

(** The frames presented by a call of [frame] that made the decision [d]
    and may have armed a capture. *)
Lemma framesRendered_outcome env w (d leave c : bool) :
  let w1 := with_this (atDecision env (this w)) w in
  let w2 := if d then drawn (events env) (writeOk env) w1 else w1 in
  framesRendered (viewer (this (if leave then w2 else captured c w2)))
  = if d then S (framesRendered (viewer (this w)))
    else framesRendered (viewer (this w)).
Proof.
  intros w1 w2.
  assert (H2 : framesRendered (viewer (this w2))
               = if d then S (framesRendered (viewer (this w)))
                 else framesRendered (viewer (this w))).
  { unfold w2. destruct d.
    - destruct (drawn_changes (events env) (writeOk env) w1) as (_ & Hr & _).
      unfold rendered in Hr. rewrite Hr. unfold w1.
      rewrite framesRendered_decision. reflexivity.
    - apply framesRendered_decision. }
  destruct leave; [exact H2|].
  destruct (captured_keeps c w2) as (_ & _ & _ & _ & _ & _ & _ & _ & Hf & _).
  rewrite Hf. exact H2.
Qed.

Lemma timeSinceLastFrame_outcome env w (d leave c : bool) :
  let w1 := with_this (atDecision env (this w)) w in
  let w2 := if d then drawn (events env) (writeOk env) w1 else w1 in
  timeSinceLastFrame (this (if leave then w2 else captured c w2))
  = if d then 0%float else timeSinceLastFrame (atDecision env (this w)).
Proof.
  intros w1 w2.
  assert (H2 : timeSinceLastFrame (this w2)
               = if d then 0%float
                 else timeSinceLastFrame (atDecision env (this w))).
  { unfold w2. destruct d; [|reflexivity].
    destruct (drawn_changes (events env) (writeOk env) w1) as (Hz & _). exact Hz. }
  destruct leave; [exact H2|].
  destruct (captured_keeps c w2) as (_ & _ & _ & Ht & _).
  rewrite Ht. exact H2.
Qed.

(** ** The frame decision *)

(** C2. On a viewer whose record frequency is not zero when it records,
    every call of [frame] returns, and it presents a frame exactly when
    the disjunction of the specification holds of the state in which
    the decision is made (the state that the update of the clock leaves):
    the count of presented frames grows by one when it holds and stays
    when it does not. *)
Theorem frame_draws_iff_shouldDraw env st n k w :
  (recording (this w) = true ->
   recordFrequency (this w) = Some k /\ k <> 0
   /\ frameCount (this w) <> None) ->
  exists w1 r w',
    updateClock env w = Some (tt, w1)
    /\ frame env st n w = Some (r, w')
    /\ framesRendered (viewer (this w'))
       = if shouldDraw (paused (keyboardEvent (this w1))) (recording (this w1))
              n k st (elapsedWallTime (this w1)) (speedFactor (this w1))
              (timeSinceLastFrame (this w1)) MAX_TIME_BETWEEN_FRAMES
         then S (framesRendered (viewer (this w)))
         else framesRendered (viewer (this w)).
Proof.
  intros H.
  assert (Hcfg : configured (this w)).
  { intros Hr. destruct (H Hr) as (Hk & Hk0 & Hc). split; [eauto|].
    destruct (frameCount (this w)) as [c|]; [eauto|congruence]. }
  destruct (frame_configured env st n w Hcfg) as (d & c & Hd & _ & Hf).
  cbv zeta in Hf.
  exists (with_this (atDecision env (this w)) w).
  eexists. eexists. split; [apply updateClock_run|]. split; [exact Hf|].
  rewrite framesRendered_outcome.
  rewrite (drawDecision_shouldDraw st n k) in Hd.
  - injection Hd as <-. reflexivity.
  - rewrite this_decision.
    destruct (atDecision_keeps env (this w)) as (_ & _ & _ & -> & _ & -> & _).
    intros Hr. destruct (H Hr) as (Hk & Hk0 & _). split; assumption.
Qed.

(** With the pause signal set, the update of the clock adds no time, so
    the decision compares the simulated time with the same wall time. *)
Lemma ahead_decision_paused env st v :
  paused (keyboardEvent v) = true ->
  ahead st (atDecision env v) = ahead st v.
Proof.
  intros Hp. unfold ahead, atDecision. rewrite Hp. reflexivity.
Qed.

Lemma drawDecision_paused env st n v :
  paused (keyboardEvent v) = true ->
  drawDecision st n (atDecision env v) = Some true.
Proof.
  intros Hp. unfold drawDecision.
  destruct (atDecision_keeps env v) as (_ & -> & _).
  rewrite Hp. reflexivity.
Qed.

(** C3, as the code has it. A call of [frame] entered while the pause
    signal is set presents a frame, whatever the recording members, the
    simulated time and the clock are. Its answer is decided by the pause
    signal read again after the frame is presented, that is after the
    input events of that frame are handled: when the signal is still
    set the call answers [false], for every viewer; on a configured
    viewer the call answers [false] exactly when the signal is still set
    or the simulated time is ahead of the scaled wall time, so a call
    entered paused and released while the frame is presented answers
    [true] unless the simulation is ahead. *)
Theorem frame_paused_draws_and_holds_while_paused env st n w :
  paused (keyboardEvent (this w)) = true ->
  (paused (events env (keyboardEvent (this w))) = true ->
   exists w', frame env st n w = Some (false, w') /\ rendered w w')
  /\ (configured (this w) ->
      exists r w',
        frame env st n w = Some (r, w')
        /\ rendered w w'
        /\ r = negb (paused (events env (keyboardEvent (this w)))
                     || ahead st (this w))).
Proof.
  intros Hp. split.
  - intros Hp'. rewrite frame_run. unfold framed.
    rewrite this_decision, (drawDecision_paused env st n _ Hp).
    set (w1 := with_this (atDecision env (this w)) w).
    destruct (drawn_keeps (events env) (writeOk env) w1) as (Hk2 & _).
    destruct (drawn_changes (events env) (writeOk env) w1) as (_ & Hr & _).
    destruct (atDecision_keeps env (this w)) as (_ & Hkb & _).
    cbv zeta. rewrite Hk2. unfold w1 at 1. rewrite this_decision, Hkb, Hp'.
    cbn [orb]. eexists. split; [reflexivity|].
    unfold rendered in *. rewrite Hr. unfold w1.
    rewrite framesRendered_decision. reflexivity.
  - intros Hcfg.
    destruct (frame_configured env st n w Hcfg) as (d & c & Hd & _ & Hf).
    cbv zeta in Hf. rewrite this_decision in Hd.
    rewrite (drawDecision_paused env st n _ Hp) in Hd. injection Hd as <-.
    rewrite this_decision, (ahead_decision_paused env st _ Hp) in Hf.
    cbn [andb] in Hf.
    eexists. eexists. split; [exact Hf|]. split; [|reflexivity].
    unfold rendered.
    exact (framesRendered_outcome env w true _ c).
Qed.

(** C9. On a configured viewer every call of [frame] returns; a call that
    answers [false] has presented a frame and left [timeSinceLastFrame]
    at zero, and a call that presents no frame answers [true]. *)
Theorem frame_false_only_after_draw env st n w :
  configured (this w) ->
  exists r w',
    frame env st n w = Some (r, w')
    /\ (r = false ->
        rendered w w' /\ timeSinceLastFrame (this w') = 0%float)
    /\ (framesRendered (viewer (this w')) = framesRendered (viewer (this w)) ->
        r = true).
Proof.
  intros Hcfg.
  destruct (frame_configured env st n w Hcfg) as (d & c & _ & _ & Hf).
  cbv zeta in Hf. eexists. eexists. split; [exact Hf|].
  unfold rendered.
  rewrite framesRendered_outcome, timeSinceLastFrame_outcome.
  destruct d; cbn [andb negb]; split.
  - intros _. split; reflexivity.
  - intros Heq. exfalso. symmetry in Heq. exact (n_Sn _ Heq).
  - discriminate.
  - reflexivity.
Qed.

(** ** What a call keeps *)

Lemma sameConfiguration_refl v : sameConfiguration v v.
Proof. repeat split; auto. Qed.

Lemma sameConfiguration_trans v1 v2 v3 :
  sameConfiguration v1 v2 -> sameConfiguration v2 v3 -> sameConfiguration v1 v3.
Proof.
  intros (A1 & A2 & A3 & A4 & A5 & A6 & A7) (B1 & B2 & B3 & B4 & B5 & B6 & B7).
  repeat split; try congruence; try tauto.
Qed.

Lemma sameConfiguration_configured v v' :
  sameConfiguration v v' -> configured v -> configured v'.
Proof.
  intros (_ & Hr & Hf & _ & _ & Hc & _) Hcfg Hrec.
  rewrite Hr in Hrec. destruct (Hcfg Hrec) as ((k & Hk & Hk0) & (c & Hcount)).
  split.
  - exists k. rewrite Hf. split; assumption.
  - destruct (frameCount v') as [c'|] eqn:Hc'; [eauto|].
    exfalso. apply Hc; [congruence|reflexivity].
Qed.

Lemma atDecision_sameConfiguration env v : sameConfiguration v (atDecision env v).
Proof.
  destruct (atDecision_keeps env v)
    as (Hv & _ & Hs & Hr & Hc & Hf & Hd & Hroot).
  repeat split; try assumption; rewrite ?Hc, ?Hv; auto.
Qed.

Lemma drawn_sameConfiguration h ok w :
  sameConfiguration (this w) (this (drawn h ok w)).
Proof.
  destruct (drawn_keeps h ok w) as (_ & Hs & _ & Hr & Hc & Hf & Hd & Hroot).
  repeat split; try assumption; rewrite ?Hc; auto.
  - intros H. unfold drawn. cbn [this with_this with_timeSinceLastFrame viewer].
    rewrite presented_postDrawCallback, H. reflexivity.
  - unfold drawn. cbn [this with_this with_timeSinceLastFrame viewer].
    rewrite presented_postDrawCallback.
    destruct (postDrawCallback (viewer (this w))); [discriminate|reflexivity].
Qed.

Lemma captured_sameConfiguration c w :
  sameConfiguration (this w) (this (captured c w)).
Proof.
  unfold captured. destruct c; [|apply sameConfiguration_refl].
  unfold recorded.
  destruct (postDrawCallback (viewer (this w))) as [cb|] eqn:Hcb;
    [|apply sameConfiguration_refl].
  destruct (frameCount (this w)) as [count|] eqn:Hc;
    [|apply sameConfiguration_refl].
  cbn. repeat split; try discriminate. rewrite Hcb. discriminate.
Qed.

(** The state that a call of [frame] leaves keeps the configuration. *)
Lemma outcome_sameConfiguration env w (d leave c : bool) :
  let w1 := with_this (atDecision env (this w)) w in
  let w2 := if d then drawn (events env) (writeOk env) w1 else w1 in
  sameConfiguration (this w) (this (if leave then w2 else captured c w2)).
Proof.
  intros w1 w2.
  assert (H1 : sameConfiguration (this w) (this w1))
    by apply atDecision_sameConfiguration.
  assert (H2 : sameConfiguration (this w) (this w2)).
  { unfold w2. destruct d; [|exact H1].
    eapply sameConfiguration_trans; [exact H1|apply drawn_sameConfiguration]. }
  destruct leave; [exact H2|].
  eapply sameConfiguration_trans; [exact H2|apply captured_sameConfiguration].
Qed.

Lemma frame_sameConfiguration env st n w r w' :
  configured (this w) ->
  frame env st n w = Some (r, w') ->
  sameConfiguration (this w) (this w').
Proof.
  intros Hcfg Hf.
  destruct (frame_configured env st n w Hcfg) as (d & c & _ & _ & Hf').
  cbv zeta in Hf'. rewrite Hf' in Hf. injection Hf as _ <-.
  apply outcome_sameConfiguration.
Qed.

Lemma step_run c w :
  step c w
  = frame (call_env c) (call_simulatedTime c) (call_numTimeSteps c) w.
Proof. reflexivity. Qed.

Lemma step_configured c w :
  configured (this w) ->
  exists r w',
    step c w = Some (r, w') /\ sameConfiguration (this w) (this w').
Proof.
  intros Hcfg. rewrite step_run.
  destruct (frame_configured (call_env c) (call_simulatedTime c)
              (call_numTimeSteps c) w Hcfg) as (d & k & _ & _ & Hf).
  cbv zeta in Hf. eexists. eexists. split; [exact Hf|].
  apply outcome_sameConfiguration.
Qed.

Lemma run_configured calls : forall w,
  configured (this w) ->
  exists rs w',
    run calls w = Some (rs, w') /\ sameConfiguration (this w) (this w').
Proof.
  induction calls as [|c rest IH]; intros w Hcfg.
  - exists [], w. split; [reflexivity|apply sameConfiguration_refl].
  - destruct (step_configured c w Hcfg) as (r & w1 & Hs & H1).
    destruct (IH w1) as (rs & w' & Hr & H2).
    { eapply sameConfiguration_configured; eassumption. }
    exists (r :: rs), w'. split.
    + cbn [run]. unfold bind. rewrite Hs, Hr. reflexivity.
    + eapply sameConfiguration_trans; eassumption.
Qed.

Lemma init_configured now sp sf rec rf dir :
  (rec = true -> rf <> 0) -> configured (init now sp sf rec rf dir).
Proof.
  intros H Hrec. cbn in Hrec. subst rec. cbn. split; eauto.
Qed.

(** With a zero record frequency, a recording viewer that is not paused
    divides by zero in the cadence test. *)
Lemma frame_zero_frequency env st n w :
  recording (this w) = true ->
  recordFrequency (this w) = Some 0 ->
  paused (keyboardEvent (this w)) = false ->
  frame env st n w = None.
Proof.
  intros Hr Hf Hp. rewrite frame_run. unfold framed, drawDecision.
  rewrite this_decision, cadence_atDecision.
  destruct (atDecision_keeps env (this w)) as (_ & -> & _).
  rewrite Hp. unfold cadence. rewrite Hr, Hf. reflexivity.
Qed.

(** With a zero record frequency, a call of a recording viewer in which
    the pause signal is released either divides by zero or answers
    [false] and leaves the viewer released. *)
Lemma frame_zero_frequency_released env st n w :
  recording (this w) = true ->
  recordFrequency (this w) = Some 0 ->
  paused (events env (keyboardEvent (this w))) = false ->
  frame env st n w = None
  \/ exists w',
       frame env st n w = Some (false, w')
       /\ recording (this w') = true
       /\ recordFrequency (this w') = Some 0
       /\ paused (keyboardEvent (this w')) = false.
Proof.
  intros Hr Hf Hp. rewrite frame_run. unfold framed.
  set (w1 := with_this (atDecision env (this w)) w).
  assert (Hc1 : cadence n (this w1) = None).
  { unfold w1. rewrite this_decision, cadence_atDecision.
    unfold cadence. rewrite Hr, Hf. reflexivity. }
  destruct (atDecision_keeps env (this w)) as (_ & Hkb & _ & Hr1 & _ & Hf1 & _).
  destruct (drawDecision st n (this w1)) as [[|]|]; [| |left; reflexivity].
  - cbv zeta.
    destruct (drawn_keeps (events env) (writeOk env) w1)
      as (Hk2 & _ & _ & Hr2 & _ & Hf2 & _).
    destruct (paused (keyboardEvent (this (drawn (events env) (writeOk env) w1)))
              || ahead st (this (drawn (events env) (writeOk env) w1))).
    + right. eexists. split; [reflexivity|].
      rewrite Hr2, Hf2, Hk2. unfold w1. rewrite this_decision, Hr1, Hf1, Hkb.
      repeat split; assumption.
    + left. unfold afterDraw. rewrite cadence_drawn, Hc1. reflexivity.
  - left. unfold afterDraw. rewrite Hc1. reflexivity.
Qed.

(** ** Totality *)

(** C10. A viewer made by one of the two constructors without recording
    arguments answers every sequence of calls of [frame]: the modulo by
    the record frequency, which [init] leaves unassigned, is never
    evaluated. A viewer made by [init] answers every sequence of calls
    exactly when it does not record or its record frequency is at least
    one. *)
Theorem frame_total_iff_frequency_positive :
  (forall now sp calls, exists rs w',
      run calls (new_World (Viewer_1 now sp)) = Some (rs, w'))
  /\ (forall now sp sf calls, exists rs w',
         run calls (new_World (Viewer_2 now sp sf)) = Some (rs, w'))
  /\ (forall now sp sf rec rf dir,
         (forall calls, exists rs w',
             run calls (new_World (init now sp sf rec rf dir)) = Some (rs, w'))
         <-> (rec = true -> 1 <= rf)).
Proof.
  assert (Hdef : forall now sp sf rec rf dir calls,
             (rec = true -> rf <> 0) ->
             exists rs w',
               run calls (new_World (init now sp sf rec rf dir)) = Some (rs, w')).
  { intros now sp sf rec rf dir calls H.
    destruct (run_configured calls (new_World (init now sp sf rec rf dir)))
      as (rs & w' & Hr & _); [apply init_configured; exact H|eauto]. }
  split; [|split].
  - intros now sp calls. apply Hdef. discriminate.
  - intros now sp sf calls. apply Hdef. discriminate.
  - intros now sp sf rec rf dir. split.
    + intros Hall Hrec. subst rec.
      destruct (N.eq_dec rf 0) as [->|Hne]; [|lia].
      exfalso.
      set (env := {| clock1 := now; clock2 := now; writeOk := true;
                     events := fun k => {| paused := false;
                                           quit := quit k |} |}).
      set (release := {| call_env := env;
                         call_simulatedTime := 0;
                         call_numTimeSteps := 0 |}).
      destruct (Hall [release; release]) as (rs & w' & Hrun).
      cbn [run] in Hrun. unfold bind in Hrun. rewrite !step_run in Hrun.
      cbn [release call_env call_simulatedTime call_numTimeSteps] in Hrun.
      destruct (frame_zero_frequency_released env 0 0
                  (new_World (init now sp sf true 0 dir)))
        as [Hn|(w1 & Hs & Hr1 & Hf1 & Hp1)]; try reflexivity.
      * rewrite Hn in Hrun. discriminate.
      * rewrite Hs in Hrun. cbv beta iota in Hrun. rewrite step_run in Hrun.
        cbn [release call_env call_simulatedTime call_numTimeSteps] in Hrun.
        rewrite (frame_zero_frequency _ _ _ w1 Hr1 Hf1 Hp1) in Hrun.
        discriminate.
    + intros H calls. apply Hdef. intros Hrec. specialize (H Hrec). lia.
Qed.

(** ** The starvation bound *)

Lemma drawDecision_starving st n v d :
  drawDecision st n v = Some d -> starving v = true -> d = true.
Proof.
  unfold drawDecision.
  destruct (paused (keyboardEvent v)); [congruence|].
  destruct (cadence n v) as [[|]|]; try congruence.
  intros [= <-] ->. apply orb_true_r.
Qed.

(** C6, as the code has it. On a configured viewer every call of [frame]
    returns. When [timeSinceLastFrame] has reached the bound at the
    decision, the call presents a frame and resets it to zero; after
    every call it is zero or below the bound. At the decision it may
    exceed the bound, by the wall time of the last tick. *)
Theorem starvation_forces_draw env st n w :
  configured (this w) ->
  exists w1 r w',
    updateClock env w = Some (tt, w1)
    /\ frame env st n w = Some (r, w')
    /\ ((MAX_TIME_BETWEEN_FRAMES <=? timeSinceLastFrame (this w1))%float = true ->
        rendered w w' /\ timeSinceLastFrame (this w') = 0%float)
    /\ (timeSinceLastFrame (this w') = 0%float
        \/ (MAX_TIME_BETWEEN_FRAMES <=? timeSinceLastFrame (this w'))%float
           = false).
Proof.
  intros Hcfg.
  destruct (frame_configured env st n w Hcfg) as (d & c & Hd & _ & Hf).
  cbv zeta in Hf.
  exists (with_this (atDecision env (this w)) w).
  eexists. eexists. split; [apply updateClock_run|]. split; [exact Hf|].
  unfold rendered.
  rewrite framesRendered_outcome, timeSinceLastFrame_outcome.
  rewrite this_decision in *.
  split.
  - intros Hs. rewrite (drawDecision_starving _ _ _ _ Hd Hs). split; reflexivity.
  - destruct d; [left; reflexivity|right].
    destruct (MAX_TIME_BETWEEN_FRAMES <=? timeSinceLastFrame (atDecision env (this w)))%float
      eqn:Hs; [|reflexivity].
    discriminate (drawDecision_starving _ _ _ _ Hd Hs).
Qed.

(** ** Construction validates nothing *)

(** C7, as the code has it. [init] accepts every speed factor and every
    record frequency and stores them as they come, the frequency when
    the viewer records. A zero frequency of a recording viewer shows
    only in [frame], whose cadence test is then undefined unless the
    viewer is paused; in every other case [frame] returns, whatever the
    speed factor is. *)
Theorem init_validates_nothing now sp sf rec rf dir :
  let v := init now sp sf rec rf dir in
  speedFactor v = sf
  /\ recording v = rec
  /\ recordFrequency v = (if rec then Some rf else None)
  /\ (forall env st n,
         rec = true /\ rf = 0 /\ sp = false ->
         frame env st n (new_World v) = None)
  /\ (forall env st n,
         rec = false \/ rf <> 0 ->
         exists r w', frame env st n (new_World v) = Some (r, w')).
Proof.
  cbv zeta. repeat split.
  - intros env st n (-> & -> & ->). apply frame_zero_frequency; reflexivity.
  - intros env st n H.
    destruct (frame_configured env st n (new_World (init now sp sf rec rf dir)))
      as (d & c & _ & _ & Hf).
    + apply init_configured. intros ->. destruct H; [discriminate|assumption].
    + cbv zeta in Hf. eauto.
Qed.

(** ** The recorder *)

Lemma presented_viewer_ok h ok ok' w :
  this (presented h ok w) = this (presented h ok' w).
Proof.
  unfold presented.
  destruct (postDrawCallback (viewer (this w))) as [cb|]; [|reflexivity].
  destruct (_snapImageOnNextFrame cb); reflexivity.
Qed.

Lemma drawn_viewer_ok h ok ok' w : this (drawn h ok w) = this (drawn h ok' w).
Proof.
  unfold drawn. cbn [this with_this].
  rewrite (presented_viewer_ok h ok ok'). reflexivity.
Qed.

Lemma afterDraw_viewerOf n w1 w2 :
  this w1 = this w2 ->
  viewerOf (afterDraw n w1) = viewerOf (afterDraw n w2).
Proof.
  intros H. unfold afterDraw, recorded. rewrite H.
  destruct (cadence n (this w2)) as [[|]|]; cbn [viewerOf]; try congruence.
  destruct (postDrawCallback (viewer (this w2))); cbn [viewerOf];
    [|congruence].
  destruct (frameCount (this w2)); cbn [viewerOf this with_this]; congruence.
Qed.

(** The answer of [frame] and the viewer it leaves do not depend on the
    answer of the image write. *)
Lemma frame_viewerOf_write env st n w :
  viewerOf (frame (otherWrite env) st n w) = viewerOf (frame env st n w).
Proof.
  rewrite !frame_run. unfold framed.
  change (atDecision (otherWrite env) (this w)) with (atDecision env (this w)).
  change (events (otherWrite env)) with (events env).
  set (w1 := with_this (atDecision env (this w)) w).
  destruct (drawDecision st n (this w1)) as [[|]|]; try reflexivity.
  cbv zeta.
  rewrite (drawn_viewer_ok (events env) (writeOk (otherWrite env)) (writeOk env) w1).
  destruct (paused _ || ahead _ _).
  - cbn [viewerOf]. rewrite (drawn_viewer_ok (events env) _ (writeOk env)). reflexivity.
  - apply afterDraw_viewerOf. apply drawn_viewer_ok.
Qed.

Lemma uint_incr_mod m :
  uint_incr (N.of_nat m mod UINT_MODULUS) = N.of_nat (S m) mod UINT_MODULUS.
Proof.
  unfold uint_incr. rewrite N.Div0.add_mod_idemp_l.
  f_equal. lia.
Qed.

(** C5, as the code has it. [frameCount] counts the captures that [record]
    arms: arming adds one, before any image is written; presenting a
    frame, whether its image write succeeds or fails, leaves the count as
    it is and disarms the capture; and the answer of [frame] and the
    viewer it leaves are the same for a failed and for a successful
    write. *)
Theorem frameCount_counts_armed_captures cb count handle ok env st n w :
  postDrawCallback (viewer (this w)) = Some cb ->
  frameCount (this w) = Some count ->
  (exists w',
      record w = Some (tt, w')
      /\ frameCount (this w') = Some (uint_incr count)
      /\ captureArmed (this w') = true
      /\ imageWrites w' = imageWrites w)
  /\ (exists w',
         viewer_frame handle ok w = Some (tt, w')
         /\ frameCount (this w') = Some count
         /\ captureArmed (this w') = false)
  /\ viewerOf (frame (otherWrite env) st n w) = viewerOf (frame env st n w).
Proof.
  intros Hcb Hc. split; [|split].
  - rewrite record_run. unfold recorded. rewrite Hcb, Hc.
    eexists. split; [reflexivity|]. repeat split.
  - rewrite viewer_frame_run. eexists. split; [reflexivity|].
    rewrite presented_this. cbn [frameCount with_viewer]. split; [exact Hc|].
    unfold captureArmed. cbn [viewer with_viewer].
    rewrite presented_postDrawCallback, Hcb. reflexivity.
  - apply frame_viewerOf_write.
Qed.

(** ** The cadence of the captures *)

Lemma captureNames_S dir m :
  captureNames dir (S m)
  = (captureNames dir m ++ [captureName dir (N.of_nat m mod UINT_MODULUS)])%list.
Proof.
  unfold captureNames. rewrite seq_S, map_app. reflexivity.
Qed.

Lemma recordingState_configured dir k m w :
  k <> 0 -> recordingState dir k m w -> configured (this w).
Proof.
  intros Hk (_ & Hf & _ & Hc & _) _. split; eauto.
Qed.

Lemma recordingState_cadence dir k m n w :
  k <> 0 -> recordingState dir k m w ->
  cadence n (this w) = Some (n mod k =? 0).
Proof.
  intros Hk (Hr & Hf & _). unfold cadence. rewrite Hr, Hf.
  apply N.eqb_neq in Hk. rewrite Hk. reflexivity.
Qed.

(** The clock and the pause signal do not touch the recorder. *)
Lemma recordingState_viewer dir k m w w' :
  recording (this w') = recording (this w) ->
  recordFrequency (this w') = recordFrequency (this w) ->
  recordDirectoryName (this w') = recordDirectoryName (this w) ->
  frameCount (this w') = frameCount (this w) ->
  postDrawCallback (viewer (this w')) = postDrawCallback (viewer (this w)) ->
  imageWrites w' = imageWrites w ->
  recordingState dir k m w -> recordingState dir k m w'.
Proof.
  intros Hr Hf Hd Hc Hcb Hw (A & B & C & D & F).
  unfold recordingState. rewrite Hr, Hf, Hd, Hc, Hcb, Hw.
  repeat split; assumption.
Qed.

Lemma recordingState_decision dir k m env w :
  recordingState dir k m w ->
  recordingState dir k m (with_this (atDecision env (this w)) w).
Proof.
  destruct (atDecision_keeps env (this w))
    as (Hv & _ & _ & Hr & Hc & Hf & Hd & _).
  apply recordingState_viewer; cbn [this with_this imageWrites];
    try assumption; [rewrite Hv|]; reflexivity.
Qed.

(** Presenting a frame writes the pending capture and disarms it. *)
Lemma recordingState_drawn dir k m h ok w :
  recordingState dir k m w ->
  recordingState dir k m (drawn h ok w)
  /\ captureArmed (this (drawn h ok w)) = false.
Proof.
  intros (Hr & Hf & Hd & Hc & cb & Hcb & Harm & Hw).
  destruct (drawn_keeps h ok w) as (_ & _ & _ & Hr' & Hc' & Hf' & Hd' & _).
  destruct (drawn_changes h ok w) as (_ & _ & Hdis & Hw').
  split; [|exact Hdis].
  unfold recordingState. rewrite Hr', Hc', Hf', Hd'.
  repeat split; try assumption.
  exists (setSnapImageOnNextFrame false cb). split; [|split].
  - unfold drawn. cbn [this with_this with_timeSinceLastFrame viewer].
    rewrite presented_postDrawCallback, Hcb. reflexivity.
  - discriminate.
  - cbn [_snapImageOnNextFrame setSnapImageOnNextFrame].
    rewrite Hw', presented_imageWrites, Hcb.
    destruct (_snapImageOnNextFrame cb); [|exact Hw].
    destruct Harm as (m' & -> & Hname); [reflexivity|].
    rewrite map_app, Hw, captureNames_S. cbn [pred map fst].
    rewrite Hname. reflexivity.
Qed.

(** Arming a capture, on a viewer whose capture is not pending. *)
Lemma recordingState_captured dir k m w :
  recordingState dir k m w ->
  captureArmed (this w) = false ->
  recordingState dir k (S m) (captured true w)
  /\ frameCount (this (captured true w))
     = Some (uint_incr (N.of_nat m mod UINT_MODULUS)).
Proof.
  intros (Hr & Hf & Hd & Hc & cb & Hcb & _ & Hw) Hdis.
  unfold captureArmed in Hdis. rewrite Hcb in Hdis. rewrite Hdis in Hw.
  unfold captured, recorded. rewrite Hcb, Hc.
  split; [|reflexivity].
  unfold recordingState. cbn -[uint_incr captureName].
  rewrite uint_incr_mod, Hd. repeat split; try assumption.
  eexists. split; [reflexivity|]. cbn -[captureName]. split.
  - intros _. exists m. split; reflexivity.
  - exact Hw.
Qed.

(** One call of the simulation loop on a recording viewer. *)
Lemma step_recordingState dir k m c w :
  k <> 0 -> recordingState dir k m w ->
  exists r w',
    step c w = Some (r, w')
    /\ recordingState dir k ((if captureDue k c r then 1 else 0) + m) w'
    /\ frameCount (this w')
       = Some (if captureDue k c r
               then uint_incr (N.of_nat m mod UINT_MODULUS)
               else N.of_nat m mod UINT_MODULUS).
Proof.
  intros Hk H0. rewrite step_run.
  set (w0 := w) in *.
  set (env := call_env c). set (n := call_numTimeSteps c).
  set (st := call_simulatedTime c).
  destruct (frame_configured env st n w0
              (recordingState_configured _ _ _ _ Hk H0))
    as (d & due & Hd & Hdue & Hf).
  cbv zeta in Hf. rewrite (recordingState_cadence _ _ _ n _ Hk H0) in Hdue.
  injection Hdue as <-.
  set (w1 := with_this (atDecision env (this w0)) w0) in *.
  assert (H1 : recordingState dir k m w1)
    by (apply recordingState_decision; exact H0).
  eexists. eexists. split; [exact Hf|].
  unfold captureDue. fold n.
  destruct d.
  - destruct (recordingState_drawn _ _ _ (events env) (writeOk env) _ H1) as (H2 & Hdis).
    cbn [andb].
    destruct (paused (events env (keyboardEvent (this w0)))
              || ahead st (this w1));
      cbn [negb andb].
    + split; [exact H2|]. destruct H2 as (_ & _ & _ & Hc & _). exact Hc.
    + destruct (n mod k =? 0).
      * exact (recordingState_captured _ _ _ _ H2 Hdis).
      * split; [exact H2|]. destruct H2 as (_ & _ & _ & Hc & _). exact Hc.
  - cbn [andb negb].
    assert (Hno : (n mod k =? 0) = false).
    { unfold drawDecision in Hd.
      rewrite (recordingState_cadence _ _ _ n _ Hk H1) in Hd.
      destruct (paused (keyboardEvent (this w1))); [discriminate|].
      destruct (n mod k =? 0); [discriminate|reflexivity]. }
    rewrite Hno. split; [exact H1|].
    destruct H1 as (_ & _ & _ & Hc & _). exact Hc.
Qed.

Lemma run_recordingState dir k calls : forall m w,
  k <> 0 -> recordingState dir k m w ->
  exists rs w',
    run calls w = Some (rs, w')
    /\ recordingState dir k (captures k calls rs + m) w'.
Proof.
  induction calls as [|c rest IH]; intros m w Hk Hst.
  - exists [], w. split; [reflexivity|exact Hst].
  - destruct (step_recordingState dir k m c w Hk Hst) as (r & w1 & Hs & H1 & _).
    destruct (IH _ w1 Hk H1) as (rs & w' & Hr & H2).
    exists (r :: rs), w'. split.
    + cbn [run]. unfold bind. rewrite Hs, Hr. reflexivity.
    + cbn [captures].
      replace ((if captureDue k c r then 1 else 0) + captures k rest rs + m)%nat
        with (captures k rest rs + ((if captureDue k c r then 1 else 0) + m))%nat
        by lia.
      exact H2.
Qed.

Lemma init_recordingState now sp sf k dir :
  recordingState dir k 0 (new_World (init now sp sf true k dir)).
Proof.
  unfold recordingState. cbn. repeat split.
  eexists. split; [reflexivity|]. split; [discriminate|reflexivity].
Qed.

(** C4, as the code has it. On a viewer that records at a frequency [k]
    of at least one, every sequence of calls of [frame] returns. The
    calls that arm a capture are those that answer [true] with a time
    step that [k] divides: a call that answers [false], because the
    viewer is paused or the simulation is ahead of the wall clock, arms
    none. After the sequence [frameCount] is the number of these calls,
    as a 32-bit unsigned integer; the names handed to the image writer
    are those of the captures in order, the last one waiting for the next
    presented frame while the capture is armed; and one more call adds
    one to the count exactly when it arms a capture. *)
Theorem recording_cadence now sp sf k dir calls :
  k <> 0 ->
  exists rs w',
    run calls (new_World (init now sp sf true k dir)) = Some (rs, w')
    /\ let m := captures k calls rs in
       frameCount (this w') = Some (N.of_nat m mod UINT_MODULUS)
       /\ map fst (imageWrites w')
          = captureNames dir (if captureArmed (this w') then pred m else m)
       /\ forall c, exists r w'',
            step c w' = Some (r, w'')
            /\ frameCount (this w'')
               = Some (if r && (call_numTimeSteps c mod k =? 0)
                       then uint_incr (N.of_nat m mod UINT_MODULUS)
                       else N.of_nat m mod UINT_MODULUS).
Proof.
  intros Hk.
  destruct (run_recordingState dir k calls 0 _ Hk
              (init_recordingState now sp sf k dir)) as (rs & w' & Hr & Hst).
  rewrite Nat.add_0_r in Hst.
  exists rs, w'. split; [exact Hr|]. cbv zeta. split; [|split].
  - destruct Hst as (_ & _ & _ & Hc & _). exact Hc.
  - destruct Hst as (_ & _ & _ & _ & cb & Hcb & _ & Hw).
    unfold captureArmed. rewrite Hcb. exact Hw.
  - intros c.
    destruct (step_recordingState dir k _ c w' Hk Hst) as (r & w'' & Hs & _ & Hc).
    exists r, w''. split; [exact Hs|exact Hc].
Qed.

(** ** The names of the captures *)

Lemma length_zeros k : String.length (zeros k) = k.
Proof. induction k as [|k IH]; cbn; [reflexivity|rewrite IH; reflexivity]. Qed.

Lemma length_append (s t : string) :
  String.length (s ++ t) = (String.length s + String.length t)%nat.
Proof. induction s as [|a s IH]; cbn; [reflexivity|rewrite IH; reflexivity]. Qed.

Lemma format04_length n : (4 <= String.length (format04 n))%nat.
Proof.
  unfold format04. cbv zeta. rewrite length_append, length_zeros. lia.
Qed.



Lemma uint_of_zeros k s d :
  NilEmpty.uint_of_string s = Some d ->
  NilEmpty.uint_of_string (zeros k ++ s) = Some (Nat.iter k Decimal.D0 d).
Proof.
  intros H. induction k as [|k IH]; [exact H|].
  cbn [zeros String.append NilEmpty.uint_of_string Nat.iter].
  rewrite IH. reflexivity.
Qed.

Lemma of_uint_zeros k d : N.of_uint (Nat.iter k Decimal.D0 d) = N.of_uint d.
Proof. induction k as [|k IH]; [reflexivity|exact IH]. Qed.

Lemma uint_of_decimal n :
  exists d, NilEmpty.uint_of_string (decimal n) = Some d /\ N.of_uint d = n.
Proof.
  unfold decimal.
  pose proof (DecimalN.Unsigned.of_to n) as Hn.
  destruct (N.to_uint n) as [|d|d|d|d|d|d|d|d|d|d] eqn:Hd;
    [exists (Decimal.D0 Decimal.Nil); split; [reflexivity|exact Hn]|..];
    (eexists; split; [apply NilEmpty.usu|exact Hn]).
Qed.

(** The index in the name of a capture reads back as the frame count. *)
Lemma readDecimal_format04 n : readDecimal (format04 n) = Some n.
Proof.
  destruct (uint_of_decimal n) as (d & Hd & Hn).
  unfold readDecimal, format04. cbv zeta.
  rewrite (uint_of_zeros _ _ _ Hd). cbn [option_map].
  rewrite of_uint_zeros, Hn. reflexivity.
Qed.




(** ** Scene composition *)

Lemma addChild_run child w :
  addChild child w
  = Some (tt, with_this (with_root (root (this w) ++ [child])%list (this w)) w).
Proof. reflexivity. Qed.

Lemma nth_error_pushed {A} (l : list A) (x : A) :
  nth_error (l ++ [x])%list (List.length l) = Some x.
Proof.
  rewrite nth_error_app2 by lia. rewrite Nat.sub_diag. reflexivity.
Qed.

(** The loop attaches the root node of every body part that comes before
    the first one without a render model. *)
Lemma addBodyParts_prefix pre : forall rs rest renderModels w,
  map renderable pre = map Some rs ->
  addBodyParts (pre ++ rest)%list (List.length renderModels) renderModels w
  = addBodyParts rest (List.length (renderModels ++ rs)%list) (renderModels ++ rs)
      (with_this
         (with_root (root (this w) ++ map getRootNode rs)%list (this w)) w).
Proof.
  induction pre as [|part pre IH]; intros rs rest renderModels w Hrs.
  - destruct rs; [|discriminate]. cbn [map app]. rewrite !app_nil_r.
    destruct w as [v out log]. destruct v. reflexivity.
  - destruct rs as [|r rs]; [discriminate|].
    cbn [map] in Hrs. injection Hrs as Hr Hrs.
    cbn [app addBodyParts]. unfold renderable in Hr.
    destruct (createRenderModel part) as [renderModel|]; [|discriminate].
    rewrite Hr, nth_error_pushed. unfold bind at 1. rewrite addChild_run.
    replace (S (List.length renderModels)) with (List.length (renderModels ++ [r])%list)
      by (rewrite List.length_app; cbn; lia).
    rewrite (IH rs rest (renderModels ++ [r])%list _ Hrs).
    rewrite <- !app_assoc. cbn [app map this with_this root with_root].
    rewrite <- app_assoc. reflexivity.
Qed.

(** A body part without a render model ends the loop with [false]; the
    viewer stays as the loop found it. *)
Lemma addBodyParts_failure part rest i renderModels w :
  renderable part = None ->
  exists w',
    addBodyParts (part :: rest) i renderModels w = Some (false, w')
    /\ this w' = this w /\ imageWrites w' = imageWrites w.
Proof.
  intros H. cbn [addBodyParts]. unfold renderable in H.
  destruct (createRenderModel part) as [renderModel|].
  - rewrite H. eexists. split; [reflexivity|]. split; reflexivity.
  - eexists. split; [reflexivity|]. split; reflexivity.
Qed.

(** C1, as the code has it. When the body part [m] has no render model
    (its construction or its initialisation fails) and the parts [pre]
    before it have the render models [rs], [configureScene] answers
    [false] and leaves the root nodes of [rs] attached to the root, in
    order; nothing else of the viewer changes: no terrain and no obstacle
    is attached, and the scene is not handed to the rendering library. *)
Theorem configureScene_failure_keeps_prefix pre m post rs scenario w :
  map renderable pre = map Some rs ->
  renderable m = None ->
  exists w',
    configureScene (pre ++ m :: post)%list scenario w = Some (false, w')
    /\ this w'
       = with_root (root (this w) ++ map getRootNode rs)%list (this w).
Proof.
  intros Hrs Hm. unfold configureScene. unfold bind at 1.
  change (addBodyParts (pre ++ m :: post) 0 [] w)
    with (addBodyParts (pre ++ m :: post) (List.length (@nil RenderModel)) [] w).
  rewrite (addBodyParts_prefix pre rs (m :: post) [] w Hrs).
  destruct (addBodyParts_failure m post (List.length ([] ++ rs)%list) ([] ++ rs)%list
              (with_this
                 (with_root (root (this w) ++ map getRootNode rs)%list (this w))
                 w) Hm) as (w' & Hrun & Hthis & _).
  rewrite Hrun. cbn [negb]. exists w'. split; [reflexivity|exact Hthis].
Qed.

(** ** Scene composition: the complete scene *)

Lemma addObstacles_run obstacles : forall w,
  addObstacles obstacles w
  = Some (tt, with_this
                (with_root
                   (root (this w)
                    ++ map BoxObstacleRender_getRootNode obstacles)%list
                   (this w)) w).
Proof.
  induction obstacles as [|obstacle rest IH]; intros w.
  - cbn [addObstacles map]. rewrite app_nil_r.
    destruct w as [v out log]. destruct v. reflexivity.
  - cbn [addObstacles map]. unfold bind. rewrite addChild_run, IH.
    cbn [this with_this root with_root]. rewrite <- app_assoc. reflexivity.
Qed.

Lemma addBodyParts_complete parts rs w :
  map renderable parts = map Some rs ->
  addBodyParts parts 0 [] w
  = Some (true,
          with_this
            (with_root (root (this w) ++ map getRootNode rs)%list (this w)) w).
Proof.
  intros Hrs.
  pose proof (addBodyParts_prefix parts rs [] [] w Hrs) as H.
  rewrite app_nil_r in H. exact H.
Qed.

(** Every list of body parts is renderable as a whole or has a first
    part without a render model. *)
Lemma renderable_or_first_failure (parts : list Model) :
  (exists rs, map renderable parts = map Some rs)
  \/ (exists pre m post rs,
         parts = (pre ++ m :: post)%list
         /\ map renderable pre = map Some rs
         /\ renderable m = None).
Proof.
  induction parts as [|part rest IH].
  - left. exists []. reflexivity.
  - destruct (renderable part) as [r|] eqn:Hr.
    + destruct IH as [(rs & Hrs)|(pre & m & post & rs & -> & Hrs & Hm)].
      * left. exists (r :: rs). cbn [map]. rewrite Hr, Hrs. reflexivity.
      * right. exists (part :: pre), m, post, (r :: rs).
        split; [reflexivity|]. split; [|exact Hm].
        cbn [map]. rewrite Hr, Hrs. reflexivity.
    + right. exists [], part, rest, []. repeat split. exact Hr.
Qed.

(** The world after a complete [configureScene]. *)
Lemma configureScene_complete parts rs scenario w :
  map renderable parts = map Some rs ->
  exists w',
    configureScene parts scenario w = Some (true, w')
    /\ root (this w')
       = (root (this w) ++ map getRootNode rs
          ++ TerrainRender_getRootNode (getTerrain scenario)
             :: map BoxObstacleRender_getRootNode (getObstacles scenario))%list
    /\ sceneData (viewer (this w')) = Some (root (this w'))
    /\ realized (viewer (this w')) = true
    /\ releaseContextAtEndOfFrameHint (viewer (this w')) = false
    /\ cameraManipulator (viewer (this w'))
       = match cameraManipulator (viewer (this w)) with
         | Some m => Some m
         | None =>
             if allowEventFocus (viewer (this w))
             then Some TrackballManipulator
             else None
         end
    /\ postDrawCallback (viewer (this w')) = postDrawCallback (viewer (this w))
    /\ frameCount (this w') = frameCount (this w)
    /\ imageWrites w' = imageWrites w
    /\ cout w'
       = (cout w ++ ["Press P to pause/unpause the simulation."%string;
                     "Press Q to quit the visualizer."%string])%list.
Proof.
  intros Hrs. unfold configureScene. unfold bind at 1.
  rewrite (addBodyParts_complete parts rs w Hrs). cbn [negb].
  unfold bind at 1. rewrite addChild_run.
  unfold bind at 1. rewrite addObstacles_run.
  unfold bind, modify, gets, when, print, ret. cbn.
  destruct (cameraManipulator (viewer (this w))) as [m|] eqn:Hm;
    [|destruct (allowEventFocus (viewer (this w))) eqn:Hf];
    (eexists; split; [reflexivity|]);
    cbn; rewrite ?Hm, ?Hf, <- ?app_assoc; repeat split.
Qed.

(** The world after a [configureScene] that stops at the body part [m]. *)
Lemma configureScene_stops pre m post rs scenario w :
  map renderable pre = map Some rs ->
  renderable m = None ->
  exists w',
    configureScene (pre ++ m :: post)%list scenario w = Some (false, w')
    /\ this w'
       = with_root (root (this w) ++ map getRootNode rs)%list (this w)
    /\ imageWrites w' = imageWrites w
    /\ cout w'
       = (cout w
          ++ match createRenderModel m with
             | None =>
                 [("Cannot create a render model for model "
                   ++ decimal (N.of_nat (List.length pre)))%string]
             | Some _ =>
                 ["Cannot initialize a render model for one of the components. "%string;
                  "Please check that the models/ folder is in the same folder of this executable."%string]
             end)%list.
Proof.
  intros Hrs Hm. unfold configureScene. unfold bind at 1.
  change (addBodyParts (pre ++ m :: post) 0 [] w)
    with (addBodyParts (pre ++ m :: post) (List.length (@nil RenderModel)) [] w).
  rewrite (addBodyParts_prefix pre rs (m :: post) [] w Hrs).
  assert (Hlen : List.length ([] ++ rs)%list = List.length pre).
  { cbn [app]. rewrite <- (length_map Some rs), <- Hrs. apply length_map. }
  rewrite Hlen. cbn [addBodyParts]. unfold renderable in Hm.
  destruct (createRenderModel m) as [renderModel|].
  - rewrite Hm. eexists. split; [reflexivity|]. cbn.
    rewrite <- app_assoc. repeat split.
  - eexists. split; [reflexivity|]. repeat split.
Qed.

(** X1. When every body part has a render model, [configureScene]
    answers [true] and appends to the root, after what is attached
    already, the root nodes of the body parts in order, then the one of
    the terrain, then those of the obstacles in order; it hands this root
    to the rendering library, realizes the viewer and clears the hint to
    release the context. *)
Theorem configureScene_complete_scene parts rs scenario w :
  map renderable parts = map Some rs ->
  exists w',
    configureScene parts scenario w = Some (true, w')
    /\ root (this w')
       = (root (this w) ++ map getRootNode rs
          ++ TerrainRender_getRootNode (getTerrain scenario)
             :: map BoxObstacleRender_getRootNode (getObstacles scenario))%list
    /\ sceneData (viewer (this w')) = Some (root (this w'))
    /\ realized (viewer (this w')) = true
    /\ releaseContextAtEndOfFrameHint (viewer (this w')) = false.
Proof.
  intros Hrs.
  destruct (configureScene_complete parts rs scenario w Hrs)
    as (w' & Hrun & Hroot & Hscene & Hreal & Hhint & _).
  exists w'. repeat split; assumption.
Qed.

(** X2. A complete [configureScene] installs the trackball manipulator
    exactly when the viewer has no camera manipulator and its camera
    allows the event focus; a manipulator that is installed already is
    kept, and without the event focus none is installed. The recording
    callback, the frame count and the log of the image writes stay as
    they are. *)
Theorem configureScene_camera_manipulator parts rs scenario w :
  map renderable parts = map Some rs ->
  exists w',
    configureScene parts scenario w = Some (true, w')
    /\ cameraManipulator (viewer (this w'))
       = match cameraManipulator (viewer (this w)) with
         | Some m => Some m
         | None =>
             if allowEventFocus (viewer (this w))
             then Some TrackballManipulator
             else None
         end
    /\ postDrawCallback (viewer (this w')) = postDrawCallback (viewer (this w))
    /\ frameCount (this w') = frameCount (this w)
    /\ imageWrites w' = imageWrites w.
Proof.
  intros Hrs.
  destruct (configureScene_complete parts rs scenario w Hrs)
    as (w' & Hrun & _ & _ & _ & _ & Hm & Hcb & Hc & Hlog & _).
  exists w'. repeat split; assumption.
Qed.

(** X3. [configureScene] returns for every list of body parts, and it
    answers [true] exactly when every body part has a render model. *)
Theorem configureScene_true_iff_all_renderable parts scenario w :
  exists r w',
    configureScene parts scenario w = Some (r, w')
    /\ (r = true <-> exists rs, map renderable parts = map Some rs).
Proof.
  destruct (renderable_or_first_failure parts)
    as [(rs & Hrs)|(pre & m & post & rs & -> & Hrs & Hm)].
  - destruct (configureScene_complete parts rs scenario w Hrs)
      as (w' & Hrun & _).
    exists true, w'. split; [exact Hrun|]. split; eauto.
  - destruct (configureScene_stops pre m post rs scenario w Hrs Hm)
      as (w' & Hrun & _).
    exists false, w'. split; [exact Hrun|]. split; [discriminate|].
    intros (rs' & Hall). exfalso.
    rewrite map_app in Hall. cbn [map] in Hall. rewrite Hm in Hall.
    clear - Hall. revert rs' Hall.
    induction (map renderable pre) as [|o l IH]; intros [|r' rs'] Hall;
      cbn in Hall; try discriminate.
    injection Hall as _ Hall. exact (IH _ Hall).
Qed.

(** X4. A [configureScene] that stops reports the failure on standard
    output and nowhere else: for a part without render model, one line
    that names the index of the part, which is the number of the parts
    before it; for a part whose initialisation fails, the two lines of
    the advice about the models folder, without the index. It writes no
    image. *)
Theorem configureScene_reports_failure pre m post rs scenario w :
  map renderable pre = map Some rs ->
  renderable m = None ->
  exists w',
    configureScene (pre ++ m :: post)%list scenario w = Some (false, w')
    /\ imageWrites w' = imageWrites w
    /\ cout w'
       = (cout w
          ++ match createRenderModel m with
             | None =>
                 [("Cannot create a render model for model "
                   ++ decimal (N.of_nat (List.length pre)))%string]
             | Some _ =>
                 ["Cannot initialize a render model for one of the components. "%string;
                  "Please check that the models/ folder is in the same folder of this executable."%string]
             end)%list.
Proof.
  intros Hrs Hm.
  destruct (configureScene_stops pre m post rs scenario w Hrs Hm)
    as (w' & Hrun & _ & Hlog & Hout).
  exists w'. repeat split; assumption.
Qed.

(** ** More on [frame] *)

(** The shape of every call of [frame] that returns. *)
Lemma frame_inv env st n w r w' :
  frame env st n w = Some (r, w') ->
  exists d,
    drawDecision st n (atDecision env (this w)) = Some d
    /\ exists w2,
         w2 = (if d then drawn (events env) (writeOk env)
                           (with_this (atDecision env (this w)) w)
               else with_this (atDecision env (this w)) w)
         /\ ((r = false /\ d = true /\ w' = w2)
             \/ (r = true /\ (w' = w2 \/ recorded w2 = Some w'))).
Proof.
  rewrite frame_run. unfold framed. rewrite this_decision.
  destruct (drawDecision st n (atDecision env (this w))) as [[|]|];
    [| |discriminate]; cbv zeta; intros H.
  - exists true. split; [reflexivity|]. eexists. split; [reflexivity|].
    destruct (paused _ || ahead _ _).
    + injection H as <- <-. left. repeat split.
    + right. unfold afterDraw in H.
      destruct (cadence n _) as [[|]|]; [| |discriminate].
      * destruct (recorded _) as [w3|] eqn:Hr; [|discriminate].
        injection H as <- <-. split; [reflexivity|]. right. reflexivity.
      * injection H as <- <-. split; [reflexivity|]. left. reflexivity.
  - exists false. split; [reflexivity|]. eexists. split; [reflexivity|].
    right. unfold afterDraw in H.
    destruct (cadence n _) as [[|]|]; [| |discriminate].
    + destruct (recorded _) as [w3|] eqn:Hr; [|discriminate].
      injection H as <- <-. split; [reflexivity|]. right. reflexivity.
    + injection H as <- <-. split; [reflexivity|]. left. reflexivity.
Qed.

Lemma atDecision_ticks env v :
  tick1 (atDecision env v) = clock2 env
  /\ tick2 (atDecision env v) = Some (clock1 env).
Proof. unfold atDecision. destruct (paused (keyboardEvent v)); split; reflexivity. Qed.

Lemma drawn_ticks h ok w :
  tick1 (this (drawn h ok w)) = tick1 (this w)
  /\ tick2 (this (drawn h ok w)) = tick2 (this w)
  /\ sceneData (viewer (this (drawn h ok w))) = sceneData (viewer (this w)).
Proof.
  unfold drawn. cbn [this with_this with_timeSinceLastFrame tick1 tick2 viewer].
  rewrite presented_this. cbn [tick1 tick2 with_viewer].
  repeat split. unfold presented.
  destruct (postDrawCallback (viewer (this w))) as [cb|]; [|reflexivity].
  destruct (_snapImageOnNextFrame cb); reflexivity.
Qed.

Lemma recorded_ticks w w' :
  recorded w = Some w' ->
  tick1 (this w') = tick1 (this w)
  /\ tick2 (this w') = tick2 (this w)
  /\ sceneData (viewer (this w')) = sceneData (viewer (this w)).
Proof.
  unfold recorded.
  destruct (postDrawCallback (viewer (this w))) as [cb|].
  - destruct (frameCount (this w)); [|discriminate].
    intros [= <-]. repeat split.
  - intros [= <-]. repeat split.
Qed.

(** The input handler after a call of [frame] that made the decision
    [d]: the events are handled when a frame is presented. *)
Lemma keyboardEvent_outcome env w (d leave c : bool) :
  let w1 := with_this (atDecision env (this w)) w in
  let w2 := if d then drawn (events env) (writeOk env) w1 else w1 in
  keyboardEvent (this (if leave then w2 else captured c w2))
  = if d then events env (keyboardEvent (this w))
    else keyboardEvent (this w).
Proof.
  intros w1 w2.
  destruct (atDecision_keeps env (this w)) as (_ & Hkb & _).
  assert (H2 : keyboardEvent (this w2)
               = if d then events env (keyboardEvent (this w))
                 else keyboardEvent (this w)).
  { unfold w2. destruct d.
    - destruct (drawn_keeps (events env) (writeOk env) w1) as (-> & _).
      unfold w1. rewrite this_decision, Hkb. reflexivity.
    - unfold w1. rewrite this_decision. exact Hkb. }
  destruct leave; [exact H2|].
  destruct (captured_keeps c w2) as (-> & _). exact H2.
Qed.

(** A call that presents no frame was not paused and not ahead. *)
Lemma drawDecision_false st n v :
  drawDecision st n v = Some false ->
  paused (keyboardEvent v) = false /\ ahead st v = false.
Proof.
  unfold drawDecision.
  destruct (paused (keyboardEvent v)); [discriminate|].
  destruct (cadence n v) as [[|]|]; try discriminate.
  destruct (ahead st v); [discriminate|]. split; reflexivity.
Qed.

(** X5. On a configured viewer the answer of [frame] is [false] exactly
    when, as the call returns, the viewer is paused or the simulated
    time is beyond the wall time scaled by the speed factor. The pause
    signal of the answer is the one left by the input events of the
    frame that the call presented, not the one of the draw decision; a
    call that presents no frame handles no event, is not paused and
    answers [true]. The cadence of the recording and the starvation
    bound make the call draw, not wait. *)
Theorem frame_answer env st n w :
  configured (this w) ->
  exists w1 r w',
    updateClock env w = Some (tt, w1)
    /\ frame env st n w = Some (r, w')
    /\ paused (keyboardEvent (this w'))
       = (if Nat.eqb (framesRendered (viewer (this w')))
               (S (framesRendered (viewer (this w))))
          then paused (events env (keyboardEvent (this w1)))
          else false)
    /\ r = negb (paused (keyboardEvent (this w'))
                 || (elapsedWallTime (this w1) * speedFactor (this w1) <? st)%float).
Proof.
  intros Hcfg.
  destruct (frame_configured env st n w Hcfg) as (d & c & Hd & _ & Hf).
  cbv zeta in Hf.
  exists (with_this (atDecision env (this w)) w).
  eexists. eexists. split; [apply updateClock_run|]. split; [exact Hf|].
  rewrite framesRendered_outcome, keyboardEvent_outcome.
  rewrite this_decision in *.
  destruct (atDecision_keeps env (this w)) as (_ & Hkb & _).
  rewrite Hkb.
  change (elapsedWallTime (atDecision env (this w))
          * speedFactor (atDecision env (this w)) <? st)%float
    with (ahead st (atDecision env (this w))).
  destruct d; cbn [andb].
  - rewrite Nat.eqb_refl. split; reflexivity.
  - destruct (drawDecision_false _ _ _ Hd) as (Hp & Ha).
    rewrite Hkb in Hp. rewrite Hp, Ha.
    replace (Nat.eqb (framesRendered (viewer (this w)))
               (S (framesRendered (viewer (this w))))) with false
      by (symmetry; apply Nat.eqb_neq, n_Sn).
    split; reflexivity.
Qed.

(** The ticks after a call of [frame] that returns. *)
Lemma frame_ticks env st n w r w' :
  frame env st n w = Some (r, w') ->
  tick1 (this w') = clock2 env /\ tick2 (this w') = Some (clock1 env).
Proof.
  intros H. destruct (frame_inv _ _ _ _ _ _ H) as (d & _ & w2 & Hw2 & Hcases).
  destruct (atDecision_ticks env (this w)) as (H1 & H2).
  assert (Ht : tick1 (this w2) = clock2 env /\ tick2 (this w2) = Some (clock1 env)).
  { subst w2. destruct d; [|split; assumption].
    destruct (drawn_ticks (events env) (writeOk env) (with_this (atDecision env (this w)) w))
      as (-> & -> & _).
    split; assumption. }
  destruct Hcases as [(_ & _ & ->)|(_ & [->|Hr])]; try exact Ht.
  destruct (recorded_ticks _ _ Hr) as (-> & -> & _). exact Ht.
Qed.

(** X6. On a configured viewer every call of [frame] returns and leaves
    the first tick at the second reading of the clock of that call,
    paused or not: the wall time that passes before the next call is
    measured from there, and the time between the two readings of one
    call is never counted. *)
Theorem frame_restarts_tick env st n w :
  configured (this w) ->
  exists r w',
    frame env st n w = Some (r, w')
    /\ tick1 (this w') = clock2 env
    /\ tick2 (this w') = Some (clock1 env).
Proof.
  intros Hcfg.
  destruct (frame_configured env st n w Hcfg) as (d & c & _ & _ & Hf).
  cbv zeta in Hf. eexists. eexists. split; [exact Hf|].
  exact (frame_ticks _ _ _ _ _ _ Hf).
Qed.

Lemma captured_sceneData c w :
  sceneData (viewer (this (captured c w))) = sceneData (viewer (this w)).
Proof.
  unfold captured. destruct c; [|reflexivity].
  destruct (recorded w) as [w'|] eqn:Hr; [|reflexivity].
  destruct (recorded_ticks _ _ Hr) as (_ & _ & ->). reflexivity.
Qed.

(** What a call of [frame] leaves untouched. *)
Lemma kept_outcome env w (d leave c : bool) :
  let w1 := with_this (atDecision env (this w)) w in
  let w2 := if d then drawn (events env) (writeOk env) w1 else w1 in
  let w' := if leave then w2 else captured c w2 in
  root (this w') = root (this w)
  /\ sceneData (viewer (this w')) = sceneData (viewer (this w))
  /\ speedFactor (this w') = speedFactor (this w)
  /\ recording (this w') = recording (this w)
  /\ recordFrequency (this w') = recordFrequency (this w)
  /\ recordDirectoryName (this w') = recordDirectoryName (this w).
Proof.
  intros w1 w2 w'.
  assert (H1 : root (this w1) = root (this w)
               /\ sceneData (viewer (this w1)) = sceneData (viewer (this w))
               /\ speedFactor (this w1) = speedFactor (this w)
               /\ recording (this w1) = recording (this w)
               /\ recordFrequency (this w1) = recordFrequency (this w)
               /\ recordDirectoryName (this w1) = recordDirectoryName (this w)).
  { unfold w1. rewrite this_decision.
    destruct (atDecision_keeps env (this w))
      as (-> & _ & -> & -> & _ & -> & -> & ->).
    repeat split. }
  assert (H2 : root (this w2) = root (this w)
               /\ sceneData (viewer (this w2)) = sceneData (viewer (this w))
               /\ speedFactor (this w2) = speedFactor (this w)
               /\ recording (this w2) = recording (this w)
               /\ recordFrequency (this w2) = recordFrequency (this w)
               /\ recordDirectoryName (this w2) = recordDirectoryName (this w)).
  { unfold w2. destruct d; [|exact H1].
    destruct (drawn_keeps (events env) (writeOk env) w1)
      as (_ & -> & _ & -> & _ & -> & -> & ->).
    destruct (drawn_ticks (events env) (writeOk env) w1) as (_ & _ & ->).
    exact H1. }
  unfold w'. destruct leave; [exact H2|].
  destruct (captured_keeps c w2)
    as (_ & -> & _ & _ & -> & -> & -> & -> & _).
  rewrite captured_sceneData. exact H2.
Qed.

(** X7. On a configured viewer every call of [frame] returns, and it
    never touches the root of the scene, the scene handed to the
    rendering library, the speed factor, the recording flag, the record
    frequency and the output directory. The pause and quit signals
    change only by the input events of a presented frame: after a call
    that presented a frame they are what these events made of them, and
    after a call that presented none they are what they were. *)
Theorem frame_keeps_scene_and_configuration env st n w :
  configured (this w) ->
  exists r w',
    frame env st n w = Some (r, w')
    /\ root (this w') = root (this w)
    /\ sceneData (viewer (this w')) = sceneData (viewer (this w))
    /\ speedFactor (this w') = speedFactor (this w)
    /\ recording (this w') = recording (this w)
    /\ recordFrequency (this w') = recordFrequency (this w)
    /\ recordDirectoryName (this w') = recordDirectoryName (this w)
    /\ keyboardEvent (this w')
       = (if Nat.eqb (framesRendered (viewer (this w')))
               (S (framesRendered (viewer (this w))))
          then events env (keyboardEvent (this w))
          else keyboardEvent (this w)).
Proof.
  intros Hcfg.
  destruct (frame_configured env st n w Hcfg) as (d & c & _ & _ & Hf).
  cbv zeta in Hf. eexists. eexists. split; [exact Hf|].
  rewrite framesRendered_outcome, keyboardEvent_outcome.
  destruct (kept_outcome env w d
              (d && (paused (events env (keyboardEvent (this w)))
                     || ahead st (this (with_this (atDecision env (this w)) w))))
              c) as (A & B & C & D & F & G).
  repeat split; try assumption.
  destruct d.
  - rewrite Nat.eqb_refl. reflexivity.
  - replace (Nat.eqb (framesRendered (viewer (this w)))
               (S (framesRendered (viewer (this w))))) with false
      by (symmetry; apply Nat.eqb_neq, n_Sn).
    reflexivity.
Qed.

(** ** Sequences of calls *)

Lemma frame_paused_outcome env st n w :
  paused (keyboardEvent (this w)) = true ->
  paused (events env (keyboardEvent (this w))) = true ->
  frame env st n w
  = Some (false, drawn (events env) (writeOk env) (with_this (atDecision env (this w)) w)).
Proof.
  intros Hp Hp'. rewrite frame_run. unfold framed, drawDecision.
  rewrite this_decision.
  destruct (atDecision_keeps env (this w)) as (_ & Hkb & _).
  rewrite Hkb, Hp. cbv zeta.
  destruct (drawn_keeps (events env) (writeOk env) (with_this (atDecision env (this w)) w))
    as (-> & _).
  rewrite this_decision, Hkb, Hp'. reflexivity.
Qed.

(** One call of the simulation loop on a viewer that is paused and stays
    paused. *)
Lemma step_paused c w :
  paused (keyboardEvent (this w)) = true ->
  (forall k, paused k = true -> paused (events (call_env c) k) = true) ->
  exists w',
    step c w = Some (false, w')
    /\ paused (keyboardEvent (this w')) = true
    /\ elapsedWallTime (this w') = elapsedWallTime (this w)
    /\ framesRendered (viewer (this w')) = S (framesRendered (viewer (this w)))
    /\ frameCount (this w') = frameCount (this w)
    /\ timeSinceLastFrame (this w') = 0%float.
Proof.
  intros Hp Hh. rewrite step_run.
  rewrite frame_paused_outcome by (try apply Hh; exact Hp).
  eexists. split; [reflexivity|].
  set (w1 := with_this (atDecision (call_env c) (this w)) w).
  destruct (drawn_keeps (events (call_env c)) (writeOk (call_env c)) w1)
    as (-> & _ & -> & _ & -> & _).
  destruct (drawn_changes (events (call_env c)) (writeOk (call_env c)) w1)
    as (-> & Hr & _).
  unfold rendered in Hr. rewrite Hr.
  unfold w1. rewrite framesRendered_decision, this_decision.
  destruct (atDecision_clock (call_env c) (this w)) as (-> & _).
  destruct (atDecision_keeps (call_env c) (this w))
    as (_ & -> & _ & _ & -> & _).
  rewrite Hp. repeat split. apply Hh. exact Hp.
Qed.

(** X8. While the viewer is paused the clock of the pacing stands still:
    on a viewer that is paused, a sequence of calls whose input events
    never release the pause answers [false] every time and presents one
    frame per call, and it leaves the viewer paused and the elapsed wall
    time and the frame count as they were, however long the pause lasts
    on the wall clock. *)
Theorem paused_calls_freeze_the_clock calls : forall w,
  paused (keyboardEvent (this w)) = true ->
  Forall
    (fun c => forall k, paused k = true -> paused (events (call_env c) k) = true)
    calls ->
  exists w',
    run calls w = Some (repeat false (List.length calls), w')
    /\ paused (keyboardEvent (this w')) = true
    /\ elapsedWallTime (this w') = elapsedWallTime (this w)
    /\ framesRendered (viewer (this w'))
       = (List.length calls + framesRendered (viewer (this w)))%nat
    /\ frameCount (this w') = frameCount (this w).
Proof.
  induction calls as [|c rest IH]; intros w Hp Hall.
  - exists w. repeat split. exact Hp.
  - inversion Hall as [|c' rest' Hc Hrest]; subst.
    destruct (step_paused c w Hp Hc) as (w1 & Hs & Hp1 & He & Hf & Hn & _).
    destruct (IH w1 Hp1 Hrest) as (w' & Hr & Hp' & He' & Hf' & Hn').
    exists w'. split; [|split; [|split; [|split]]].
    + cbn [run List.length repeat]. unfold bind. rewrite Hs, Hr. reflexivity.
    + exact Hp'.
    + rewrite He', He. reflexivity.
    + rewrite Hf', Hf. cbn [List.length]. lia.
    + rewrite Hn', Hn. reflexivity.
Qed.

Lemma frameTime_below_millisecond env v :
  (-1000 < clock1 env - tick1 v < 1000)%Z ->
  frameTime env v = 0%float.
Proof.
  intros H. unfold frameTime, total_milliseconds.
  replace (Z.quot (clock1 env - tick1 v) 1000) with 0%Z; [reflexivity|].
  symmetry. apply Z.quot_small_iff; lia.
Qed.

(** X9. The wall time is counted in whole milliseconds, truncated: a
    call that comes less than a millisecond after the previous one adds
    zero to the elapsed wall time and to the time since the last frame,
    and still moves the first tick to its own reading of the clock, so
    that this fraction of a millisecond is never counted. *)
Theorem tick_below_millisecond_is_lost env w :
  paused (keyboardEvent (this w)) = false ->
  (-1000 < clock1 env - tick1 (this w) < 1000)%Z ->
  exists w1,
    updateClock env w = Some (tt, w1)
    /\ elapsedWallTime (this w1) = (elapsedWallTime (this w) + 0)%float
    /\ timeSinceLastFrame (this w1) = (timeSinceLastFrame (this w) + 0)%float
    /\ tick1 (this w1) = clock2 env.
Proof.
  intros Hp Ht. rewrite updateClock_run. eexists. split; [reflexivity|].
  rewrite this_decision.
  destruct (atDecision_clock env (this w)) as (-> & -> & ->).
  rewrite Hp, (frameTime_below_millisecond env (this w) Ht). repeat split.
Qed.

(** The state of a viewer that does not record and has written nothing. *)
Lemma silent_step c w :
  recording (this w) = false ->
  postDrawCallback (viewer (this w)) = None ->
  exists r w',
    step c w = Some (r, w')
    /\ recording (this w') = false
    /\ postDrawCallback (viewer (this w')) = None
    /\ imageWrites w' = imageWrites w
    /\ cout w' = cout w
    /\ frameCount (this w') = frameCount (this w).
Proof.
  intros Hrec Hcb. rewrite step_run. set (w0 := w).
  assert (Hrec0 : recording (this w0) = false) by exact Hrec.
  assert (Hcb0 : postDrawCallback (viewer (this w0)) = None) by exact Hcb.
  assert (Hcfg : configured (this w0)) by (intros Hr; congruence).
  destruct (frame_configured (call_env c) (call_simulatedTime c)
              (call_numTimeSteps c) w0 Hcfg) as (d & due & _ & Hdue & Hf).
  cbv zeta in Hf. unfold cadence in Hdue. rewrite Hrec0 in Hdue.
  injection Hdue as <-.
  eexists. eexists. split; [exact Hf|].
  set (w1 := with_this (atDecision (call_env c) (this w0)) w0).
  assert (H1 : recording (this w1) = false
               /\ postDrawCallback (viewer (this w1)) = None
               /\ imageWrites w1 = imageWrites w
               /\ cout w1 = cout w
               /\ frameCount (this w1) = frameCount (this w)).
  { unfold w1. rewrite this_decision.
    destruct (atDecision_keeps (call_env c) (this w0))
      as (-> & _ & _ & -> & -> & _).
    repeat split; assumption. }
  destruct H1 as (A & B & C & D & F).
  assert (H2 : forall h ok,
             recording (this (drawn h ok w1)) = false
             /\ postDrawCallback (viewer (this (drawn h ok w1))) = None
             /\ imageWrites (drawn h ok w1) = imageWrites w
             /\ cout (drawn h ok w1) = cout w
             /\ frameCount (this (drawn h ok w1)) = frameCount (this w)).
  { intros h ok.
    destruct (drawn_keeps h ok w1) as (_ & _ & _ & -> & -> & _).
    destruct (drawn_changes h ok w1) as (_ & _ & _ & ->).
    rewrite presented_imageWrites, B.
    unfold drawn. cbn [this with_this with_timeSinceLastFrame viewer cout].
    rewrite presented_postDrawCallback, B.
    unfold presented. rewrite B. repeat split; assumption. }
  cbn [captured].
  destruct d; cbn [andb].
  - destruct (paused (events (call_env c) (keyboardEvent (this w0)))
              || ahead (call_simulatedTime c) (this w1)); apply H2.
  - cbn [negb]. repeat split; assumption.
Qed.

(** X10. A viewer made without recording never writes an image and never
    prints: every sequence of calls of [frame] on it returns, the log of
    the image writes and standard output stay empty, and the frame
    count, which [init] left unassigned, is never assigned. *)
Theorem viewer_without_recording_writes_nothing now sp sf calls :
  exists rs w',
    run calls (new_World (Viewer_2 now sp sf)) = Some (rs, w')
    /\ imageWrites w' = []
    /\ cout w' = []
    /\ frameCount (this w') = None.
Proof.
  assert (Hgen : forall w,
             recording (this w) = false ->
             postDrawCallback (viewer (this w)) = None ->
             exists rs w',
               run calls w = Some (rs, w')
               /\ imageWrites w' = imageWrites w
               /\ cout w' = cout w
               /\ frameCount (this w') = frameCount (this w)).
  { induction calls as [|c rest IH]; intros w Hrec Hcb.
    - exists [], w. repeat split.
    - destruct (silent_step c w Hrec Hcb)
        as (r & w1 & Hs & Hrec1 & Hcb1 & Hlog & Hout & Hcount).
      destruct (IH w1 Hrec1 Hcb1) as (rs & w' & Hr & Hlog' & Hout' & Hcount').
      exists (r :: rs), w'. split; [|split; [|split]].
      + cbn [run]. unfold bind. rewrite Hs, Hr. reflexivity.
      + congruence.
      + congruence.
      + congruence. }
  destruct (Hgen (new_World (Viewer_2 now sp sf)) eq_refl eq_refl)
    as (rs & w' & Hr & Hlog & Hout & Hcount).
  exists rs, w'. repeat split; assumption.
Qed.

(** ** More on the recorder *)

Lemma append_inv_head (s t1 t2 : string) :
  (s ++ t1 = s ++ t2)%string -> t1 = t2.
Proof.
  induction s as [|a s IH]; cbn [String.append]; [auto|].
  intros [= H]. exact (IH H).
Qed.

Lemma append_inv_tail (t : string) : forall s1 s2 : string,
  (s1 ++ t = s2 ++ t)%string -> s1 = s2.
Proof.
  induction s1 as [|a s1 IH]; intros [|b s2] H; cbn [String.append] in H.
  - reflexivity.
  - exfalso. apply (f_equal String.length) in H.
    cbn [String.length] in H. rewrite length_append in H. lia.
  - exfalso. apply (f_equal String.length) in H.
    cbn [String.length] in H. rewrite length_append in H. lia.
  - injection H as -> H. rewrite (IH s2 H). reflexivity.
Qed.

Lemma format04_inj a b : format04 a = format04 b -> a = b.
Proof.
  intros H. apply (f_equal readDecimal) in H.
  rewrite !readDecimal_format04 in H. congruence.
Qed.

Lemma captureName_inj dir a b : captureName dir a = captureName dir b -> a = b.
Proof.
  unfold captureName. intros H.
  apply append_inv_head, append_inv_head in H.
  apply append_inv_tail in H. exact (format04_inj _ _ H).
Qed.

(** X11. No capture overwrites the image of another one: the file names
    of the first [m] captures into a directory are pairwise distinct, as
    long as [m] is at most 2^32, the range of the frame count. *)
Theorem capture_names_distinct dir m :
  N.of_nat m <= UINT_MODULUS -> NoDup (captureNames dir m).
Proof.
  intros Hm. unfold captureNames.
  apply NoDup_map_NoDup_ForallPairs; [|apply seq_NoDup].
  intros i j Hi Hj H. apply in_seq in Hi, Hj.
  apply captureName_inj in H.
  rewrite !N.mod_small in H by lia. lia.
Qed.

(** X12. The capture is one-shot: once [record] has armed it, the first
    presented frame hands the name to the image writer and the second
    one writes nothing, whether the first write succeeded or failed. *)
Theorem capture_is_one_shot cb count handle1 handle2 ok1 ok2 w :
  postDrawCallback (viewer (this w)) = Some cb ->
  frameCount (this w) = Some count ->
  exists w1 w2 w3,
    record w = Some (tt, w1)
    /\ viewer_frame handle1 ok1 w1 = Some (tt, w2)
    /\ viewer_frame handle2 ok2 w2 = Some (tt, w3)
    /\ imageWrites w2
       = (imageWrites w
          ++ [(captureName (recordDirectoryName (this w)) count, ok1)])%list
    /\ imageWrites w3 = imageWrites w2
    /\ captureArmed (this w3) = false.
Proof.
  intros Hcb Hc.
  rewrite record_run. unfold recorded. rewrite Hcb, Hc.
  eexists. eexists. eexists. split; [reflexivity|].
  rewrite !viewer_frame_run. split; [reflexivity|]. split; [reflexivity|].
  unfold captureArmed.
  rewrite !presented_imageWrites, !presented_postDrawCallback.
  cbn -[captureName uint_incr]. repeat split.
Qed.

(** ** The identifier of a scripted scenario *)

Lemma occurs_replace old new s :
  old <> new -> occurs old (replace old new s) = false.
Proof.
  intros Hne. induction s as [|a s IH]; [reflexivity|].
  cbn [replace occurs]. rewrite IH, orb_false_r.
  destruct (Ascii.eqb_spec a old) as [->|Ha].
  - apply Ascii.eqb_neq. exact Hne.
  - apply Ascii.eqb_neq. congruence.
Qed.

Lemma length_replace old new s :
  String.length (replace old new s) = String.length s.
Proof.
  induction s as [|a s IH]; cbn [replace String.length]; congruence.
Qed.

Lemma replace_inj old new : forall s t,
  occurs new s = false -> occurs new t = false ->
  replace old new s = replace old new t -> s = t.
Proof.
  induction s as [|a s IH]; intros [|b t] Hs Ht H;
    cbn [replace] in H; try discriminate; [reflexivity|].
  cbn [occurs] in Hs, Ht.
  apply orb_false_elim in Hs as (Ha & Hs).
  apply orb_false_elim in Ht as (Hb & Ht).
  injection H as Hab H. rewrite (IH t Hs Ht H). f_equal.
  apply Ascii.eqb_neq in Ha, Hb.
  destruct (Ascii.eqb_spec a old) as [->|Hao],
           (Ascii.eqb_spec b old) as [->|Hbo]; congruence.
Qed.

(** X13. The identifier of a scripted scenario contains no hyphen,
    whatever text the generated uuid prints as; it is as long as the
    prefix and that text together, and it begins with the prefix. *)
Theorem scenarioId_has_no_hyphen uuid :
  occurs "-" (scenarioId uuid) = false
  /\ String.length (scenarioId uuid) = (8 + String.length uuid)%nat
  /\ String.prefix "_myUUID_" (scenarioId uuid) = true.
Proof.
  unfold scenarioId. split; [|split].
  - apply occurs_replace. discriminate.
  - rewrite length_replace. reflexivity.
  - cbn. destruct (replace "-" "_" uuid); reflexivity.
Qed.

(** X14. Two uuid texts without underscore, as the hexadecimal text of a
    uuid is, give two different identifiers: the replacement of the
    hyphens identifies no two of them. *)
Theorem scenarioId_distinct u1 u2 :
  occurs "_" u1 = false ->
  occurs "_" u2 = false ->
  scenarioId u1 = scenarioId u2 -> u1 = u2.
Proof.
  unfold scenarioId. cbn [String.append replace Ascii.eqb Bool.eqb].
  intros H1 H2 [= H]. exact (replace_inj "-" "_" u1 u2 H1 H2 H).
Qed.

(** ** When the disk is touched *)

Lemma drawDecision_false_cadence st n v :
  drawDecision st n v = Some false -> cadence n v = Some false.
Proof.
  unfold drawDecision.
  destruct (paused (keyboardEvent v)); [discriminate|].
  destruct (cadence n v) as [[|]|]; [discriminate|reflexivity|discriminate].
Qed.

(** X15. A capture is armed only by a call that has presented a frame:
    on a configured viewer, a call of [frame] that changes the frame
    count has drawn before. *)
Theorem capture_follows_draw env st n w :
  configured (this w) ->
  exists r w',
    frame env st n w = Some (r, w')
    /\ (frameCount (this w') <> frameCount (this w) -> rendered w w').
Proof.
  intros Hcfg.
  destruct (frame_configured env st n w Hcfg) as (d & c & Hd & Hc & Hf).
  cbv zeta in Hf. eexists. eexists. split; [exact Hf|].
  unfold rendered. rewrite framesRendered_outcome.
  destruct d; [reflexivity|].
  intros Hne. exfalso. apply Hne. cbn [andb].
  rewrite this_decision in Hd.
  apply drawDecision_false_cadence in Hd.
  rewrite cadence_atDecision, Hc in Hd. injection Hd as ->.
  cbn [captured this with_this].
  destruct (atDecision_keeps env (this w)) as (_ & _ & _ & _ & -> & _).
  reflexivity.
Qed.

(** X16. The image writer is called in a call of [frame] exactly when
    the call presents a frame while a capture is armed from an earlier
    call: then it is called once, with the pending name; the capture
    that the call itself arms is not written by it. *)
Theorem image_written_by_next_frame env st n w :
  configured (this w) ->
  exists r w',
    frame env st n w = Some (r, w')
    /\ imageWrites w'
       = if captureArmed (this w)
            && (framesRendered (viewer (this w'))
                =? S (framesRendered (viewer (this w))))%nat
         then (imageWrites w ++ [(pendingName (this w), writeOk env)])%list
         else imageWrites w.
Proof.
  intros Hcfg.
  destruct (frame_configured env st n w Hcfg) as (d & c & _ & _ & Hf).
  cbv zeta in Hf. eexists. eexists. split; [exact Hf|].
  rewrite framesRendered_outcome.
  set (w1 := with_this (atDecision env (this w)) w).
  assert (Hw : imageWrites
                 (if d && (paused (events env (keyboardEvent (this w)))
                           || ahead st (this w1))
                  then if d then drawn (events env) (writeOk env) w1 else w1
                  else captured c (if d then drawn (events env) (writeOk env) w1 else w1))
               = imageWrites (if d then drawn (events env) (writeOk env) w1 else w1)).
  { destruct (d && _); [reflexivity|].
    destruct (captured_keeps c (if d then drawn (events env) (writeOk env) w1 else w1))
      as (_ & _ & _ & _ & _ & _ & _ & _ & _ & -> & _).
    reflexivity. }
  rewrite Hw. unfold captureArmed, pendingName.
  destruct d.
  - rewrite Nat.eqb_refl, andb_true_r.
    destruct (drawn_changes (events env) (writeOk env) w1) as (_ & _ & _ & ->).
    rewrite presented_imageWrites. unfold w1.
    rewrite this_decision.
    destruct (atDecision_keeps env (this w)) as (-> & _).
    cbn [imageWrites with_this].
    destruct (postDrawCallback (viewer (this w))) as [cb|]; reflexivity.
  - replace (framesRendered (viewer (this w))
             =? S (framesRendered (viewer (this w))))%nat with false
      by (symmetry; apply Nat.eqb_neq; apply n_Sn).
    rewrite andb_false_r. reflexivity.
Qed.

End Properties.

(** * Concrete runs *)

(** A closed statement about a concrete run is settled by running it. *)
Ltac by_evaluation :=
  lazymatch goal with
  | |- exists _, _ => eexists; by_evaluation
  | |- _ /\ _ => split; [vm_compute; reflexivity|by_evaluation]
  | |- _ => vm_compute; reflexivity
  end.

(** ** The frame decision *)

(** C2 at a recording viewer that captures every step. *)
Lemma frame_draws_iff_shouldDraw_witness :
  (recording (this (recorder false)) = true ->
   recordFrequency (this (recorder false)) = Some 1 /\ 1 <> 0
   /\ frameCount (this (recorder false)) <> None)
  /\ exists w1 r w',
       updateClock (envAt 1000 true) (recorder false) = Some (tt, w1)
       /\ frame (envAt 1000 true) 0 5 (recorder false) = Some (r, w')
       /\ framesRendered (viewer (this w'))
          = if shouldDraw (paused (keyboardEvent (this w1)))
                 (recording (this w1)) 5 1 0 (elapsedWallTime (this w1))
                 (speedFactor (this w1)) (timeSinceLastFrame (this w1))
                 (MAX_TIME_BETWEEN_FRAMES (Externals := arena))
            then S (framesRendered (viewer (this (recorder false))))
            else framesRendered (viewer (this (recorder false))).
Proof.
  assert (H : recording (this (recorder false)) = true ->
              recordFrequency (this (recorder false)) = Some 1 /\ 1 <> 0
              /\ frameCount (this (recorder false)) <> None)
    by (intros _; repeat split; discriminate).
  split; [exact H|].
  exact (frame_draws_iff_shouldDraw (envAt 1000 true) 0 5 1 (recorder false) H).
Defined.

(** C3 as stated fails. A recording viewer starts paused; the pause is
    released by an input event of the frame that the call presents, and
    the call, entered with the pause signal set, answers [true]. *)
Lemma pause_released_during_frame :
  exists w',
    paused (keyboardEvent (this (recorder true))) = true
    /\ frame (envPausing false 1000 true) 0 0 (recorder true)
       = Some (true, w')
    /\ framesRendered (viewer (this w'))
       = S (framesRendered (viewer (this (recorder true))))
    /\ paused (keyboardEvent (this w')) = false.
Proof.
  by_evaluation.
Qed.

(** The amended C3 at that call. *)
Lemma frame_paused_draws_and_holds_while_paused_witness :
  paused (keyboardEvent (this (recorder true))) = true
  /\ (paused (events (envPausing false 1000 true)
                (keyboardEvent (this (recorder true)))) = true ->
      exists w',
        frame (envPausing false 1000 true) 0 0 (recorder true)
        = Some (false, w')
        /\ rendered (recorder true) w')
  /\ (configured (this (recorder true)) ->
      exists r w',
        frame (envPausing false 1000 true) 0 0 (recorder true) = Some (r, w')
        /\ rendered (recorder true) w'
        /\ r = negb (paused (events (envPausing false 1000 true)
                               (keyboardEvent (this (recorder true))))
                     || ahead 0 (this (recorder true)))).
Proof.
  split; [reflexivity|].
  exact (frame_paused_draws_and_holds_while_paused
           (envPausing false 1000 true) 0 0 (recorder true) eq_refl).
Defined.

Lemma recorder_configured p : configured (this (recorder p)).
Proof. intros _. split; eexists; [split; [reflexivity|discriminate]|reflexivity]. Defined.

(** C9 at a recording viewer. *)
Lemma frame_false_only_after_draw_witness :
  configured (this (recorder false))
  /\ exists r w',
       frame (envAt 1000 true) 0 0 (recorder false) = Some (r, w')
       /\ (r = false ->
           rendered (recorder false) w'
           /\ timeSinceLastFrame (this w') = 0%float)
       /\ (framesRendered (viewer (this w'))
           = framesRendered (viewer (this (recorder false))) ->
           r = true).
Proof.
  split; [exact (recorder_configured false)|].
  exact (frame_false_only_after_draw (envAt 1000 true) 0 0 (recorder false)
           (recorder_configured false)).
Defined.

(** ** The starvation bound *)

(** C6 as stated fails. A viewer that is neither paused nor ahead of the
    wall clock presents a frame 60 milliseconds after its construction;
    the next call comes one second later, and at its decision
    [timeSinceLastFrame] is one second, beyond the bound of a twentieth
    of a second. *)
Lemma decision_beyond_the_bound :
  exists w1 w2,
    frame (envAt 60000 true) 0 0 (plain false) = Some (true, w1)
    /\ rendered (plain false) w1
    /\ updateClock (envAt 1060000 true) w1 = Some (tt, w2)
    /\ timeSinceLastFrame (this w2) = 1%float
    /\ (MAX_TIME_BETWEEN_FRAMES (Externals := arena)
        <? timeSinceLastFrame (this w2))%float = true.
Proof.
  by_evaluation.
Qed.

Lemma plain_configured p : configured (this (plain p)).
Proof. intros H. discriminate H. Defined.

(** The amended C6 at that viewer. *)
Lemma starvation_forces_draw_witness :
  configured (this (plain false))
  /\ exists w1 r w',
       updateClock (envAt 60000 true) (plain false) = Some (tt, w1)
       /\ frame (envAt 60000 true) 0 0 (plain false) = Some (r, w')
       /\ ((MAX_TIME_BETWEEN_FRAMES (Externals := arena)
            <=? timeSinceLastFrame (this w1))%float
           = true ->
           rendered (plain false) w'
           /\ timeSinceLastFrame (this w') = 0%float)
       /\ (timeSinceLastFrame (this w') = 0%float
           \/ (MAX_TIME_BETWEEN_FRAMES (Externals := arena)
               <=? timeSinceLastFrame (this w'))%float
              = false).
Proof.
  split; [exact (plain_configured false)|].
  exact (starvation_forces_draw (envAt 60000 true) 0 0 (plain false)
           (plain_configured false)).
Defined.

(** ** Construction *)

(** C7 as stated fails. The constructor with five arguments makes a
    viewer with a negative speed factor and a record frequency of zero,
    and [frame] answers a call on it. *)
Lemma viewer_with_invalid_configuration :
  exists w',
    speedFactor (Viewer_5 (E := arena) 0%Z true (-1) true 0 "out") = (-1)%float
    /\ recordFrequency (Viewer_5 (E := arena) 0%Z true (-1) true 0 "out")
       = Some 0
    /\ frame (envAt 1000 true) 0 0
         (new_World (Viewer_5 (E := arena) 0%Z true (-1) true 0 "out"))
       = Some (false, w').
Proof.
  by_evaluation.
Qed.

(** ** The recorder *)

(** C4 as stated fails. A recording viewer that captures every step and
    is paused presents a frame at step 0 and arms no capture, although
    the record frequency divides the step. *)
Lemma paused_call_on_cadence_arms_nothing :
  exists w',
    frame (envAt 1000 true) 0 0 (recorder true) = Some (false, w')
    /\ recordFrequency (this (recorder true)) = Some 1
    /\ (0 mod 1 =? 0) = true
    /\ frameCount (this w') = Some 0
    /\ captureArmed (this w') = false
    /\ imageWrites w' = [].
Proof.
  by_evaluation.
Qed.

(** The amended C4 at a run of four calls, the pause set by an input event
    of the third one and released by one of the fourth. *)
Lemma recording_cadence_witness :
  2 <> 0
  /\ exists rs w',
       run [callAt false 1000 true 0 0; callAt false 2000 true 0 1;
            callAt true 3000 true 0 2; callAt false 4000 true 0 2]
         (new_World (init (E := arena) 0%Z false 1 true 2 "out"))
       = Some (rs, w')
       /\ let m := captures 2
                     [callAt false 1000 true 0 0; callAt false 2000 true 0 1;
                      callAt true 3000 true 0 2; callAt false 4000 true 0 2]
                     rs in
          frameCount (this w') = Some (N.of_nat m mod UINT_MODULUS)
          /\ map fst (imageWrites w')
             = captureNames "out" (if captureArmed (this w') then pred m else m)
          /\ forall c, exists r w'',
               step c w' = Some (r, w'')
               /\ frameCount (this w'')
                  = Some (if r && (call_numTimeSteps c mod 2 =? 0)
                          then uint_incr (N.of_nat m mod UINT_MODULUS)
                          else N.of_nat m mod UINT_MODULUS).
Proof.
  assert (H : 2 <> 0) by discriminate.
  split; [exact H|].
  exact (recording_cadence (E := arena) 0%Z false 1 2 "out"
           [callAt false 1000 true 0 0; callAt false 2000 true 0 1;
            callAt true 3000 true 0 2; callAt false 4000 true 0 2] H).
Defined.

(** C5 as stated fails. The first call arms the capture of [0000.jpg];
    the second one, during which the viewer is paused, presents a frame
    whose image write fails. The only write has failed and [frameCount]
    is one. *)
Lemma failed_write_is_counted :
  exists rs w',
    run [callAt false 1000 true 0 0; callAt true 2000 false 0 1]
      (recorder false) = Some (rs, w')
    /\ imageWrites w' = [("out/0000.jpg"%string, false)]
    /\ frameCount (this w') = Some 1.
Proof.
  by_evaluation.
Qed.

(** The amended C5 at a recording viewer. *)
Lemma frameCount_counts_armed_captures_witness :
  postDrawCallback (viewer (this (recorder false)))
  = Some new_SnapImageDrawCallback
  /\ frameCount (this (recorder false)) = Some 0
  /\ (exists w',
         record (recorder false) = Some (tt, w')
         /\ frameCount (this w') = Some (uint_incr 0)
         /\ captureArmed (this w') = true
         /\ imageWrites w' = imageWrites (recorder false))
  /\ (exists w',
         viewer_frame (pauseAt true) false (recorder false) = Some (tt, w')
         /\ frameCount (this w') = Some 0
         /\ captureArmed (this w') = false)
  /\ viewerOf (frame (otherWrite (envAt 1000 true)) 0 0 (recorder false))
     = viewerOf (frame (envAt 1000 true) 0 0 (recorder false)).
Proof.
  split; [reflexivity|]. split; [reflexivity|].
  exact (frameCount_counts_armed_captures new_SnapImageDrawCallback 0
           (pauseAt true) false (envAt 1000 true) 0 0 (recorder false)
           eq_refl eq_refl).
Defined.


(** ** Scene composition *)

(** C1 as stated fails. The third body part fails its initialisation;
    [configureScene] answers [false] and the root nodes of the first two
    parts stay attached to the root. *)
Lemma configureScene_third_part_fails :
  exists w',
    configureScene (E := arena) [CoreComponent; Hinge; DamagedMesh] []
      (plain false)
    = Some (false, w')
    /\ initRenderModel (Externals := arena) DamagedMesh = None
    /\ root (this (plain false)) = []
    /\ root (this w') = [PartNode CoreComponent; PartNode Hinge].
Proof.
  by_evaluation.
Qed.

(** The amended C1 at a robot whose third part is damaged. *)
Lemma configureScene_failure_keeps_prefix_witness :
  map (renderable (E := arena)) [CoreComponent; Hinge]
  = map Some [CoreComponent; Hinge]
  /\ renderable (E := arena) DamagedMesh = None
  /\ exists w',
       configureScene (E := arena)
         ([CoreComponent; Hinge] ++ DamagedMesh :: [Wheel])%list
         [1; 2]%nat (plain false) = Some (false, w')
       /\ this w'
          = with_root
              (root (this (plain false))
               ++ map (getRootNode (Externals := arena))
                    [CoreComponent; Hinge])%list
              (this (plain false)).
Proof.
  split; [reflexivity|]. split; [reflexivity|].
  exact (configureScene_failure_keeps_prefix (E := arena)
           [CoreComponent; Hinge] DamagedMesh [Wheel] [CoreComponent; Hinge]
           [1; 2]%nat (plain false) eq_refl eq_refl).
Defined.

(** ** Further concrete runs *)

(** X1 at a robot of three parts among two obstacles. *)
Lemma configureScene_complete_scene_witness :
  map (renderable (E := arena)) [CoreComponent; Hinge; Wheel]
  = map Some [CoreComponent; Hinge; Wheel]
  /\ exists w',
       configureScene (E := arena) [CoreComponent; Hinge; Wheel] [1; 2]%nat
         (plain false) = Some (true, w')
       /\ root (this w')
          = (root (this (plain false))
             ++ map (getRootNode (Externals := arena))
                  [CoreComponent; Hinge; Wheel]
             ++ TerrainRender_getRootNode (Externals := arena)
                  (getTerrain (Externals := arena) [1; 2]%nat)
                :: map (BoxObstacleRender_getRootNode (Externals := arena))
                     (getObstacles (Externals := arena) [1; 2]%nat))%list
       /\ sceneData (viewer (this w')) = Some (root (this w'))
       /\ realized (viewer (this w')) = true
       /\ releaseContextAtEndOfFrameHint (viewer (this w')) = false.
Proof.
  split; [reflexivity|].
  exact (configureScene_complete_scene (E := arena)
           [CoreComponent; Hinge; Wheel] [CoreComponent; Hinge; Wheel]
           [1; 2]%nat (plain false) eq_refl).
Defined.

(** X2 at the same robot. *)
Lemma configureScene_camera_manipulator_witness :
  map (renderable (E := arena)) [CoreComponent; Hinge; Wheel]
  = map Some [CoreComponent; Hinge; Wheel]
  /\ exists w',
       configureScene (E := arena) [CoreComponent; Hinge; Wheel] [1; 2]%nat
         (recorder false) = Some (true, w')
       /\ cameraManipulator (viewer (this w'))
          = match cameraManipulator (viewer (this (recorder false))) with
            | Some m => Some m
            | None =>
                if allowEventFocus (viewer (this (recorder false)))
                then Some TrackballManipulator
                else None
            end
       /\ postDrawCallback (viewer (this w'))
          = postDrawCallback (viewer (this (recorder false)))
       /\ frameCount (this w') = frameCount (this (recorder false))
       /\ imageWrites w' = imageWrites (recorder false).
Proof.
  split; [reflexivity|].
  exact (configureScene_camera_manipulator (E := arena)
           [CoreComponent; Hinge; Wheel] [CoreComponent; Hinge; Wheel]
           [1; 2]%nat (recorder false) eq_refl).
Defined.

(** X4 at a robot whose second part is of unknown kind. *)
Lemma configureScene_reports_failure_witness :
  map (renderable (E := arena)) [CoreComponent] = map Some [CoreComponent]
  /\ renderable (E := arena) UnknownKind = None
  /\ exists w',
       configureScene (E := arena) ([CoreComponent] ++ UnknownKind :: [Wheel])%list
         [1; 2]%nat (plain false) = Some (false, w')
       /\ imageWrites w' = imageWrites (plain false)
       /\ cout w'
          = (cout (plain false)
             ++ match createRenderModel (Externals := arena) UnknownKind with
                | None =>
                    [("Cannot create a render model for model "
                      ++ decimal (N.of_nat (List.length [CoreComponent])))%string]
                | Some _ =>
                    ["Cannot initialize a render model for one of the components. "%string;
                     "Please check that the models/ folder is in the same folder of this executable."%string]
                end)%list.
Proof.
  split; [reflexivity|]. split; [reflexivity|].
  exact (configureScene_reports_failure (E := arena) [CoreComponent]
           UnknownKind [Wheel] [CoreComponent] [1; 2]%nat (plain false)
           eq_refl eq_refl).
Defined.

(** X5 at a call of a recording viewer during which the pause is set. *)
Lemma frame_answer_witness :
  configured (this (recorder false))
  /\ exists w1 r w',
       updateClock (envPausing true 1000 true) (recorder false) = Some (tt, w1)
       /\ frame (envPausing true 1000 true) 0 0 (recorder false) = Some (r, w')
       /\ paused (keyboardEvent (this w'))
          = (if Nat.eqb (framesRendered (viewer (this w')))
                  (S (framesRendered (viewer (this (recorder false)))))
             then paused (events (envPausing true 1000 true)
                            (keyboardEvent (this w1)))
             else false)
       /\ r = negb (paused (keyboardEvent (this w'))
                    || (elapsedWallTime (this w1) * speedFactor (this w1)
                        <? 0)%float).
Proof.
  split; [exact (recorder_configured false)|].
  exact (frame_answer (envPausing true 1000 true) 0 0 (recorder false)
           (recorder_configured false)).
Defined.

(** X6 at a viewer without recording. *)
Lemma frame_restarts_tick_witness :
  configured (this (plain false))
  /\ exists r w',
       frame {| clock1 := 1000%Z; clock2 := 1500%Z; writeOk := true;
                events := fun k => k |} 0 0
         (plain false) = Some (r, w')
       /\ tick1 (this w') = 1500%Z
       /\ tick2 (this w') = Some 1000%Z.
Proof.
  split; [exact (plain_configured false)|].
  exact (frame_restarts_tick
           {| clock1 := 1000%Z; clock2 := 1500%Z; writeOk := true;
              events := fun k => k |} 0 0
           (plain false) (plain_configured false)).
Defined.

(** X7 at a call of a recording viewer during which the pause is set. *)
Lemma frame_keeps_scene_and_configuration_witness :
  configured (this (recorder false))
  /\ exists r w',
       frame (envPausing true 1000 true) 0 0 (recorder false) = Some (r, w')
       /\ root (this w') = root (this (recorder false))
       /\ sceneData (viewer (this w'))
          = sceneData (viewer (this (recorder false)))
       /\ speedFactor (this w') = speedFactor (this (recorder false))
       /\ recording (this w') = recording (this (recorder false))
       /\ recordFrequency (this w') = recordFrequency (this (recorder false))
       /\ recordDirectoryName (this w')
          = recordDirectoryName (this (recorder false))
       /\ keyboardEvent (this w')
          = (if Nat.eqb (framesRendered (viewer (this w')))
                  (S (framesRendered (viewer (this (recorder false)))))
             then events (envPausing true 1000 true)
                    (keyboardEvent (this (recorder false)))
             else keyboardEvent (this (recorder false))).
Proof.
  split; [exact (recorder_configured false)|].
  exact (frame_keeps_scene_and_configuration (envPausing true 1000 true) 0 0
           (recorder false) (recorder_configured false)).
Defined.

(** X8 at a pause of five seconds on a recording viewer. *)
Lemma paused_calls_freeze_the_clock_witness :
  paused (keyboardEvent (this (recorder true))) = true
  /\ Forall
       (fun c => forall k,
            paused k = true -> paused (events (call_env c) k) = true)
       [callAt true 1000 true 0 0; callAt true 5000000 false 0 0]
  /\ exists w',
       run [callAt true 1000 true 0 0; callAt true 5000000 false 0 0]
         (recorder true)
       = Some (repeat false
                 (List.length
                    [callAt true 1000 true 0 0; callAt true 5000000 false 0 0]),
               w')
       /\ paused (keyboardEvent (this w')) = true
       /\ elapsedWallTime (this w') = elapsedWallTime (this (recorder true))
       /\ framesRendered (viewer (this w'))
          = (List.length
               [callAt true 1000 true 0 0; callAt true 5000000 false 0 0]
             + framesRendered (viewer (this (recorder true))))%nat
       /\ frameCount (this w') = frameCount (this (recorder true)).
Proof.
  assert (H : Forall
                (fun c => forall k,
                     paused k = true -> paused (events (call_env c) k) = true)
                [callAt true 1000 true 0 0; callAt true 5000000 false 0 0])
    by (repeat constructor).
  split; [reflexivity|]. split; [exact H|].
  exact (paused_calls_freeze_the_clock
           [callAt true 1000 true 0 0; callAt true 5000000 false 0 0]
           (recorder true) eq_refl H).
Defined.

(** X9 at a call 999 microseconds after the construction. *)
Lemma tick_below_millisecond_is_lost_witness :
  paused (keyboardEvent (this (plain false))) = false
  /\ (-1000 < clock1 (envAt 999 true) - tick1 (this (plain false)) < 1000)%Z
  /\ exists w1,
       updateClock (envAt 999 true) (plain false) = Some (tt, w1)
       /\ elapsedWallTime (this w1)
          = (elapsedWallTime (this (plain false)) + 0)%float
       /\ timeSinceLastFrame (this w1)
          = (timeSinceLastFrame (this (plain false)) + 0)%float
       /\ tick1 (this w1) = clock2 (envAt 999 true).
Proof.
  assert (H : (-1000 < clock1 (envAt 999 true) - tick1 (this (plain false))
               < 1000)%Z) by (split; reflexivity).
  split; [reflexivity|]. split; [exact H|].
  exact (tick_below_millisecond_is_lost (envAt 999 true) (plain false)
           eq_refl H).
Defined.

(** X11 at three captures. *)
Lemma capture_names_distinct_witness :
  N.of_nat 3 <= UINT_MODULUS /\ NoDup (captureNames "out" 3).
Proof.
  assert (H : N.of_nat 3 <= UINT_MODULUS) by (intros Hgt; discriminate Hgt).
  split; [exact H|].
  exact (capture_names_distinct "out" 3 H).
Defined.

(** X12 at a recording viewer whose first write fails. *)
Lemma capture_is_one_shot_witness :
  postDrawCallback (viewer (this (recorder false)))
  = Some new_SnapImageDrawCallback
  /\ frameCount (this (recorder false)) = Some 0
  /\ exists w1 w2 w3,
       record (recorder false) = Some (tt, w1)
       /\ viewer_frame (pauseAt true) false w1 = Some (tt, w2)
       /\ viewer_frame (pauseAt false) true w2 = Some (tt, w3)
       /\ imageWrites w2
          = (imageWrites (recorder false)
             ++ [(captureName (recordDirectoryName (this (recorder false))) 0,
                  false)])%list
       /\ imageWrites w3 = imageWrites w2
       /\ captureArmed (this w3) = false.
Proof.
  split; [reflexivity|]. split; [reflexivity|].
  exact (capture_is_one_shot new_SnapImageDrawCallback 0 (pauseAt true)
           (pauseAt false) false true (recorder false) eq_refl eq_refl).
Defined.

(** X14 at the text of a uuid. *)
Lemma scenarioId_distinct_witness :
  occurs "_" "6f1c-09ab" = false
  /\ occurs "_" "6f1c-09ab" = false
  /\ scenarioId "6f1c-09ab" = scenarioId "6f1c-09ab"
  /\ "6f1c-09ab"%string = "6f1c-09ab"%string.
Proof.
  split; [reflexivity|]. split; [reflexivity|]. split; [reflexivity|].
  exact (scenarioId_distinct "6f1c-09ab" "6f1c-09ab" eq_refl eq_refl eq_refl).
Defined.

(** X15 at a recording viewer. *)
Lemma capture_follows_draw_witness :
  configured (this (recorder false))
  /\ exists r w',
       frame (envAt 1000 true) 0 0 (recorder false) = Some (r, w')
       /\ (frameCount (this w') <> frameCount (this (recorder false)) ->
           rendered (recorder false) w').
Proof.
  split; [exact (recorder_configured false)|].
  exact (capture_follows_draw (envAt 1000 true) 0 0 (recorder false)
           (recorder_configured false)).
Defined.

(** X16 at a recording viewer. *)
Lemma image_written_by_next_frame_witness :
  configured (this (recorder false))
  /\ exists r w',
       frame (envAt 1000 true) 0 0 (recorder false) = Some (r, w')
       /\ imageWrites w'
          = if captureArmed (this (recorder false))
               && (framesRendered (viewer (this w'))
                   =? S (framesRendered (viewer (this (recorder false)))))%nat
            then (imageWrites (recorder false)
                  ++ [(pendingName (this (recorder false)),
                       writeOk (envAt 1000 true))])%list
            else imageWrites (recorder false).
Proof.
  split; [exact (recorder_configured false)|].
  exact (image_written_by_next_frame (envAt 1000 true) 0 0 (recorder false)
           (recorder_configured false)).
Defined.
